(** * The test-session store of the dyscalculia screening front end

    A shallow embedding of [src/store/testStore.ts] (the zustand store
    [useTestStore]) and of the statistics block of the parent dashboard
    ([ParentDashboard], lines 29-54), followed by the properties the
    specification states about them.

    Conventions of the embedding.
    - The store is a record [TestStore]; an action is a function from the
      store to the store.  zustand's [set(partial)] is a record copy that
      replaces the listed fields; an action that returns before calling [set]
      returns its argument.
    - [Date.now()] is an explicit argument [now : Z] of the three actions
      that read the clock.
    - JavaScript numbers that hold integers (time stamps, indices, counters)
      are [Z]; quotients are exact rationals [Q].  The rounding of IEEE
      doubles is outside the model.
    - [T | null] is [option T].  JavaScript truthiness is written out where
      the source tests it: an object and a non-empty string are truthy,
      [null], [undefined], and the number 0 are falsy. *)

From Stdlib Require Import ZArith QArith List String Bool Lia.
From Stdlib Require Import Qfield Qreduction.
Import ListNotations.

Local Open Scope string_scope.
Local Open Scope list_scope.
Local Open Scope Z_scope.

(** ** Data model (testStore.ts, lines 3-46) *)

Inductive AgeGroup : Type := Age5_6 | Age7_8 | Age9_10.

Inductive TestType : Type := NumberComparison | MentalArithmetic | MemoryRecall.

Inductive RiskLevel : Type := Low | Medium | High.

(** The string a [TestType] stands for.  Every one is non-empty, hence
    truthy: [!currentTestType] holds exactly for [null]. *)
Definition testTypeTag (t : TestType) : string :=
  match t with
  | NumberComparison => "number-comparison"
  | MentalArithmetic => "mental-arithmetic"
  | MemoryRecall => "memory-recall"
  end.

Record Question : Type := mkQuestion {
  questionId : string;
  testType : TestType;
  story : string;
  visualObject : string;
  leftValue : option Z;
  rightValue : option Z;
  memorySequence : option (list string);
  options : list string;
  correctAnswer : string;
  emoji : option string;
  left_emoji : option string;
  right_emoji : option string;
  left_label : option string;
  right_label : option string
}.

Record Answer : Type := mkAnswer {
  ansQuestionId : string;
  selectedAnswer : string;
  responseTimeMs : Z;
  answerChanges : Z;
  correct : bool
}.

Record TestResult : Type := mkTestResult {
  resTestType : TestType;
  totalQuestions : Z;
  correctAnswers : Z;
  avgResponseTime : Q;
  resAnswers : list Answer
}.

Record RiskAssessment : Type := mkRiskAssessment {
  riskLevel : RiskLevel;
  confidence : Q;
  explanation : string;
  recommendations : list string
}.

(** The state fields of [TestStore] (lines 48-64). *)
Record TestStore : Type := mkTestStore {
  sessionId : option string;
  ageGroup : option AgeGroup;
  currentTestType : option TestType;
  questions : list Question;
  currentQuestionIndex : Z;
  answers : list Answer;
  testResults : list TestResult;
  riskAssessment : option RiskAssessment;
  questionStartTime : option Z
}.

(** ** JavaScript primitives used by the store *)

(** [xs.length] *)
Definition len {A : Type} (xs : list A) : Z := Z.of_nat (List.length xs).

(** [xs[i]] for an integer [i]: [undefined] (here [None]) outside
    [0 .. xs.length - 1]. *)
Definition index {A : Type} (xs : list A) (i : Z) : option A :=
  if i <? 0 then None else nth_error xs (Z.to_nat i).

(** [!t] for [t : number | null]: true for [null] and for 0. *)
Definition falsyTime (t : option Z) : bool :=
  match t with
  | None => true
  | Some v => v =? 0
  end.

(** [a === b] on strings: equality of the character sequences. *)
Definition strictEq (a b : string) : bool := String.eqb a b.

(** [xs.reduce((sum, a) => sum + f(a), 0)] over integers *)
Definition sumZ {A : Type} (f : A -> Z) (xs : list A) : Z :=
  fold_left (fun sum a => sum + f a) xs 0.

(** the same over quotients *)
Definition sumQ {A : Type} (f : A -> Q) (xs : list A) : Q :=
  fold_left (fun sum a => Qplus sum (f a)) xs (0#1).

(** ** The store (testStore.ts, lines 82-207) *)

(** Initial state, lines 84-92. *)
Definition initialState : TestStore :=
  mkTestStore None None None [] 0 [] [] None None.

(** Lines 97-107. *)
Definition setSessionId (id : string) (s : TestStore) : TestStore :=
  mkTestStore (Some id) (ageGroup s) None [] 0 [] [] None None.

(** Line 109. *)
Definition setAgeGroup (age : AgeGroup) (s : TestStore) : TestStore :=
  mkTestStore (sessionId s) (Some age) (currentTestType s) (questions s)
    (currentQuestionIndex s) (answers s) (testResults s) (riskAssessment s)
    (questionStartTime s).

(** Lines 111-117. *)
Definition startTest (ty : TestType) (qs : list Question) (now : Z)
    (s : TestStore) : TestStore :=
  mkTestStore (sessionId s) (ageGroup s) (Some ty) qs 0 [] (testResults s)
    (riskAssessment s) (Some now).

(** Lines 119-137.  [answerChanges] is the second argument; the source
    defaults it to 0 when the caller leaves it out. *)
Definition submitAnswer (answer : string) (changes : Z) (now : Z)
    (s : TestStore) : TestStore :=
  match index (questions s) (currentQuestionIndex s) with
  | None => s
  | Some currentQuestion =>
      if falsyTime (questionStartTime s) then s
      else
        match questionStartTime s with
        | None => s
        | Some started =>
            let responseTime := now - started in
            let isCorrect := strictEq answer (correctAnswer currentQuestion) in
            let newAnswer :=
              mkAnswer (questionId currentQuestion) answer responseTime
                changes isCorrect in
            mkTestStore (sessionId s) (ageGroup s) (currentTestType s)
              (questions s) (currentQuestionIndex s)
              (answers s ++ [newAnswer]) (testResults s) (riskAssessment s)
              (questionStartTime s)
        end
  end.

Definition submitAnswerDefault (answer : string) (now : Z) (s : TestStore)
    : TestStore :=
  submitAnswer answer 0 now s.

(** Lines 139-147. *)
Definition nextQuestion (now : Z) (s : TestStore) : TestStore :=
  if currentQuestionIndex s <? len (questions s) - 1 then
    mkTestStore (sessionId s) (ageGroup s) (currentTestType s) (questions s)
      (currentQuestionIndex s + 1) (answers s) (testResults s)
      (riskAssessment s) (Some now)
  else s.

(** Lines 154-157: the two figures [completeTest] derives from the answers. *)
Definition correctCount (ans : list Answer) : Z :=
  len (filter correct ans).

Definition avgTime (ans : list Answer) : Q :=
  if 0 <? len ans
  then Qdiv (inject_Z (sumZ responseTimeMs ans)) (inject_Z (len ans))
  else 0#1.

(** Lines 149-175. *)
Definition completeTest (s : TestStore) : TestStore :=
  match currentTestType s with
  | None => s
  | Some ty =>
      let result :=
        mkTestResult ty (len (questions s)) (correctCount (answers s))
          (avgTime (answers s)) (answers s) in
      mkTestStore (sessionId s) (ageGroup s) None [] 0 []
        (testResults s ++ [result]) (riskAssessment s) None
  end.

(** Line 177. *)
Definition setRiskAssessment (a : RiskAssessment) (s : TestStore) : TestStore :=
  mkTestStore (sessionId s) (ageGroup s) (currentTestType s) (questions s)
    (currentQuestionIndex s) (answers s) (testResults s) (Some a)
    (questionStartTime s).

(** Lines 179-189. *)
Definition resetSession (s : TestStore) : TestStore :=
  mkTestStore None None None [] 0 [] [] None None.

(** Lines 192-195.  A [Question] object is truthy, so [|| null] only turns
    [undefined] into [null]. *)
Definition getCurrentQuestion (s : TestStore) : option Question :=
  index (questions s) (currentQuestionIndex s).

(** Lines 197-201. *)
Definition getProgress (s : TestStore) : Q :=
  if len (questions s) =? 0 then 0#1
  else Qmult (Qdiv (inject_Z (currentQuestionIndex s + 1))
                   (inject_Z (len (questions s))))
             (100#1).

(** Lines 203-206. *)
Definition isTestComplete (s : TestStore) : bool :=
  (0 <? len (questions s)) && (len (answers s) =? len (questions s)).

(** ** Runs of the store

    One constructor per action of the store, carrying the caller's arguments
    and, for the actions that call [Date.now()], the value it returns. *)
Inductive Action : Type :=
| SetSessionId (id : string)
| SetAgeGroup (age : AgeGroup)
| StartTest (ty : TestType) (qs : list Question) (now : Z)
| SubmitAnswer (answer : string) (changes : Z) (now : Z)
| NextQuestion (now : Z)
| CompleteTest
| SetRiskAssessment (a : RiskAssessment)
| ResetSession.

Definition perform (a : Action) (s : TestStore) : TestStore :=
  match a with
  | SetSessionId id => setSessionId id s
  | SetAgeGroup age => setAgeGroup age s
  | StartTest ty qs now => startTest ty qs now s
  | SubmitAnswer answer changes now => submitAnswer answer changes now s
  | NextQuestion now => nextQuestion now s
  | CompleteTest => completeTest s
  | SetRiskAssessment a => setRiskAssessment a s
  | ResetSession => resetSession s
  end.

Definition run (acts : list Action) (s : TestStore) : TestStore :=
  fold_left (fun st a => perform a st) acts s.

(** The states the store can be in: the initial one and whatever an action
    makes of a reachable one. *)
Inductive reachable : TestStore -> Prop :=
| reachable_init : reachable initialState
| reachable_step : forall a s, reachable s -> reachable (perform a s).

(** The cursor invariant: 0 on an empty question list, a valid position of
    a non-empty one. *)
Definition cursorInRange (s : TestStore) : Prop :=
  (questions s = [] -> currentQuestionIndex s = 0) /\
  (questions s <> [] ->
   0 <= currentQuestionIndex s <= len (questions s) - 1).

(** What [Date.now()] returns: the milliseconds elapsed since 1 January
    1970 UTC, a positive number on a running browser.  A clock may step
    back, so two readings come in any order. *)
Definition clockReading (t : Z) : Prop := 0 < t.

(** An action whose [now], if it has one, is a clock reading. *)
Definition onClock (a : Action) : Prop :=
  match a with
  | StartTest _ _ now | SubmitAnswer _ _ now | NextQuestion now =>
      clockReading now
  | _ => True
  end.

(** The states of the running store: those reached from the initial one by
    actions that take their [now] from the clock. *)
Inductive running : TestStore -> Prop :=
| running_init : running initialState
| running_step : forall a s, running s -> onClock a -> running (perform a s).

(** One test module from start to completion: [startTest], then the
    submissions and advances in [body], then [completeTest]. *)
Inductive BodyAction : Type :=
| BSubmit (answer : string) (changes : Z) (now : Z)
| BNext (now : Z).

Definition bodyAction (b : BodyAction) : Action :=
  match b with
  | BSubmit answer changes now => SubmitAnswer answer changes now
  | BNext now => NextQuestion now
  end.

(** How many [nextQuestion] calls a sequence of submissions and advances
    holds. *)
Definition isNext (b : BodyAction) : bool :=
  match b with
  | BNext _ => true
  | BSubmit _ _ _ => false
  end.

Definition nextCalls (body : list BodyAction) : Z := len (filter isNext body).

Record TestRun : Type := mkTestRun {
  runType : TestType;
  runQuestions : list Question;
  runStart : Z;
  runBody : list BodyAction
}.

Definition testRunActions (m : TestRun) : list Action :=
  StartTest (runType m) (runQuestions m) (runStart m)
    :: map bodyAction (runBody m) ++ [CompleteTest].

Definition runModules (ms : list TestRun) (s : TestStore) : TestStore :=
  run (flat_map testRunActions ms) s.

(** A test answered in order: one submission per question, an advance
    between two consecutive questions.  [steps] gives, per question, the
    answer, its change count, the clock at submission and the clock at the
    advance that follows (unused for the last question). *)
Fixpoint inOrder (steps : list (string * Z * Z * Z)) : list Action :=
  match steps with
  | [] => []
  | [(answer, changes, tSubmit, _)] => [SubmitAnswer answer changes tSubmit]
  | (answer, changes, tSubmit, tNext) :: rest =>
      SubmitAnswer answer changes tSubmit :: NextQuestion tNext :: inOrder rest
  end.

(** ** The statistics of the parent dashboard (ParentDashboard, lines 21-54) *)
Module Dashboard.

(** Lines 23-27. *)
Definition demoResults : list TestResult :=
  [ mkTestResult NumberComparison 5 4 (4500#1) [];
    mkTestResult MentalArithmetic 5 3 (6200#1) [];
    mkTestResult MemoryRecall 5 4 (5100#1) [] ].

(** Lines 21 and 29. *)
Definition hasResults (testResults : list TestResult) : bool :=
  0 <? len testResults.

Definition results (testResults : list TestResult) (showDemo : bool)
    : list TestResult :=
  if hasResults testResults then testResults
  else if showDemo then demoResults else [].

(** Lines 32-34.  On the right of [:=] the names [totalQuestions] and
    [avgResponseTime] are still the fields of [TestResult]. *)
Definition totalQuestions (results : list TestResult) : Z :=
  sumZ totalQuestions results.

Definition totalCorrect (results : list TestResult) : Z :=
  sumZ correctAnswers results.

Definition overallAccuracy (results : list TestResult) : Q :=
  if 0 <? totalQuestions results
  then Qmult (Qdiv (inject_Z (totalCorrect results))
                   (inject_Z (totalQuestions results)))
             (100#1)
  else 0#1.

(** Lines 35-37: the figure shown on the page, in seconds. *)
Definition avgTime (results : list TestResult) : Q :=
  if 0 <? len results
  then Qdiv (Qdiv (sumQ avgResponseTime results) (inject_Z (len results)))
            (1000#1)
  else 0#1.

(** Line 54: the figure sent to the risk service, in milliseconds.  The
    source evaluates it only when [hasResults] holds. *)
Definition avgResponseTime (results : list TestResult) : Q :=
  Qdiv (sumQ avgResponseTime results) (inject_Z (len results)).

End Dashboard.

(** ** Fixtures used by the examples *)

Definition q1 : Question :=
  mkQuestion "q1" NumberComparison "Who has more carrots?" "carrot"
    (Some 3) (Some 5) None ["Rabbit"; "Bear"] "Bear"
    None None None None None.

Definition q2 : Question :=
  mkQuestion "q2" NumberComparison "Who has more stars?" "star"
    (Some 7) (Some 2) None ["Rabbit"; "Bear"] "Rabbit"
    None None None None None.

Definition q3 : Question :=
  mkQuestion "q3" NumberComparison "Who has more balloons?" "balloon"
    (Some 4) (Some 6) None ["Rabbit"; "Bear"] "Bear"
    None None None None None.

(** ** Definitions used to state the properties *)

(** [n / k * 100] as the source writes it. *)
Definition percent (n k : Z) : Q :=
  Qmult (Qdiv (inject_Z n) (inject_Z k)) (100#1).

(** The specification's words for the two figures: the number of answers
    whose [correct] is true, and the sum of a list of integers. *)
Definition countCorrectSpec (ans : list Answer) : Z :=
  Z.of_nat (count_occ Bool.bool_dec (map correct ans) true).

Definition totalSpec (xs : list Z) : Z := fold_right Z.add 0 xs.

(** The clock readings of the advances that [inOrder steps] performs: one
    after every question but the last. *)
Definition advanceStamps (steps : list (string * Z * Z * Z)) : list Z :=
  removelast (map snd steps).

(** The sum of a list of quotients, in the specification's words. *)
Definition totalSpecQ (xs : list Q) : Q := fold_right Qplus (0#1) xs.

(** The counts the store writes into a [TestResult] are lengths. *)
Definition countsNonneg (r : TestResult) : Prop :=
  0 <= totalQuestions r /\ 0 <= correctAnswers r.

(** Two modules with unequal answer counts: one answer of 1000 ms, then three
    answers of 3000 ms each. *)
Definition unequalModules : list TestRun :=
  [ mkTestRun NumberComparison [q1] 1000 [BSubmit "Bear" 0 2000];
    mkTestRun MemoryRecall [q1; q2; q3] 10000
      [ BSubmit "Bear" 0 13000; BNext 20000;
        BSubmit "Rabbit" 0 23000; BNext 30000;
        BSubmit "Bear" 0 33000 ] ].

(** The mean over all individual answers of a list of results. *)
Definition pooledMeanSpec (rs : list TestResult) : Q :=
  (inject_Z (totalSpec (map responseTimeMs (flat_map resAnswers rs)))
     / inject_Z (len (flat_map resAnswers rs)))%Q.

(** ** More of the store's runs *)

(** The actions that leave the session alone: all but [setSessionId] and
    [resetSession]. *)
Definition keepsSession (a : Action) : bool :=
  match a with
  | SetSessionId _ | ResetSession => false
  | _ => true
  end.

Definition isComplete (a : Action) : bool :=
  match a with
  | CompleteTest => true
  | _ => false
  end.

(** The state with no test in progress, as [completeTest], [setSessionId]
    and [resetSession] leave it, and the stamp every running test has. *)
Definition noTestBaseline (s : TestStore) : Prop :=
  (currentTestType s = None ->
   questions s = [] /\ currentQuestionIndex s = 0 /\ answers s = [] /\
   questionStartTime s = None) /\
  (currentTestType s <> None -> questionStartTime s <> None).

(** An answer that was recorded for one of the questions [qs]. *)
Definition answerMatches (qs : list Question) (a : Answer) : Prop :=
  exists q, In q qs /\ ansQuestionId a = questionId q /\
            correct a = strictEq (selectedAnswer a) (correctAnswer q).

(** A result whose figures agree with the answers it holds. *)
Definition resultConsistent (r : TestResult) : Prop :=
  0 <= totalQuestions r /\
  correctAnswers r = countCorrectSpec (resAnswers r) /\
  0 <= correctAnswers r <= len (resAnswers r) /\
  avgResponseTime r = avgTime (resAnswers r).

(** The answers a test answered in order records: the first question is
    stamped [started], each later one by the advance that led to it. *)
Fixpoint answersInOrder (started : Z) (qs : list Question)
    (steps : list (string * Z * Z * Z)) : list Answer :=
  match qs, steps with
  | q :: qs', (answer, changes, tSubmit, tNext) :: steps' =>
      mkAnswer (questionId q) answer (tSubmit - started) changes
        (strictEq answer (correctAnswer q))
      :: answersInOrder tNext qs' steps'
  | _, _ => []
  end.

(** ** The risk features of the two pages *)

(** The feature vector both pages send to [api.analyzeRisk]
    (part_002, lines 132-139). *)
Record Features : Type := mkFeatures {
  accuracy_percent : Q;
  avg_response_time : Q;
  max_delay : Q;
  error_rate : Q;
  skipped_questions : Z;
  answer_changes : Z
}.

Definition featuresEq (f g : Features) : Prop :=
  (accuracy_percent f == accuracy_percent g)%Q /\
  (avg_response_time f == avg_response_time g)%Q /\
  (max_delay f == max_delay g)%Q /\
  (error_rate f == error_rate g)%Q /\
  skipped_questions f = skipped_questions g /\
  answer_changes f = answer_changes g.

(** [x || 0] for a number [x]. *)
Definition orZero (x : Z) : Z := if x =? 0 then 0 else x.

(** Truthiness of a string: every string but the empty one. *)
Definition truthyString (x : string) : bool := negb (String.eqb x "").

(** [x > y] on quotients. *)
Definition Qgt_bool (x y : Q) : bool := negb (Qle_bool x y).

(** [xs.length > 0 ? Math.max(...xs) : fallback]: the largest element of a
    non-empty array. *)
Definition maxOr (fallback : Q) (xs : list Z) : Q :=
  match xs with
  | [] => fallback
  | x :: rest => inject_Z (fold_left Z.max rest x)
  end.

(** The effect [calculateRisk] of the parent dashboard (ParentDashboard,
    lines 39-95); it runs when [hasResults] holds, so [results] is
    [testResults]. *)
Module DashboardRisk.

(** Line 48; an array is truthy, so [r.answers || []] is [r.answers]. *)
Definition allAnswers (testResults : list TestResult) : list Answer :=
  flat_map resAnswers testResults.

(** Lines 49-51. *)
Definition maxDelay (testResults : list TestResult) (showDemo : bool) : Q :=
  maxOr (Dashboard.avgTime (Dashboard.results testResults showDemo)
           * (1000#1) * (3#2))%Q
        (map (fun a => orZero (responseTimeMs a)) (allAnswers testResults)).

(** Line 52. *)
Definition answerChanges (testResults : list TestResult) : Z :=
  sumZ (fun a => orZero (answerChanges a)) (allAnswers testResults).

(** Lines 54-63. *)
Definition features (testResults : list TestResult) (showDemo : bool)
    : Features :=
  let results := Dashboard.results testResults showDemo in
  mkFeatures (Dashboard.overallAccuracy results)
    (Dashboard.avgResponseTime results)
    (maxDelay testResults showDemo)
    ((100#1) - Dashboard.overallAccuracy results)%Q
    0
    (answerChanges testResults).

(** Line 43: whether the effect goes on to compute and store an
    assessment.  A [RiskAssessment] object is truthy. *)
Definition calculates (s : TestStore) (isCalculating : bool) : bool :=
  negb (negb (Dashboard.hasResults (testResults s))
        || (match riskAssessment s with Some _ => true | None => false end)
        || isCalculating).

(** Lines 43-65: what the effect sends to [api.analyzeRisk], if anything:
    the session id, or ['local'] for a missing one, and the features. *)
Definition analyzeRequest (s : TestStore) (showDemo isCalculating : bool)
    : option (string * Features) :=
  if calculates s isCalculating then
    Some (match sessionId s with
          | Some id => if truthyString id then id else "local"
          | None => "local"
          end,
          features (testResults s) showDemo)
  else None.

(** Line 75: the level of the fallback assessment. *)
Definition fallbackLevel (overallAccuracy : Q) : RiskLevel :=
  if Qgt_bool overallAccuracy (70#1) then Low
  else if Qgt_bool overallAccuracy (40#1) then Medium
  else High.

End DashboardRisk.

(** The result page (ResultPage, age-select/page.tsx, lines 184-263). *)
Module ResultPage.

(** Lines 184-189. *)
Definition totalQuestions (testResults : list TestResult) : Z :=
  sumZ totalQuestions testResults.

Definition totalCorrect (testResults : list TestResult) : Z :=
  sumZ correctAnswers testResults.

Definition overallAccuracy (testResults : list TestResult) : Q :=
  if 0 <? totalQuestions testResults
  then Qmult (Qdiv (inject_Z (totalCorrect testResults))
                   (inject_Z (totalQuestions testResults)))
             (100#1)
  else 0#1.

Definition avgResponseTime (testResults : list TestResult) : Q :=
  if 0 <? len testResults
  then Qdiv (sumQ avgResponseTime testResults) (inject_Z (len testResults))
  else 0#1.

(** Lines 200-204. *)
Definition allAnswers (testResults : list TestResult) : list Answer :=
  flat_map resAnswers testResults.

Definition maxDelay (testResults : list TestResult) : Q :=
  maxOr (0#1) (map responseTimeMs (allAnswers testResults)).

Definition answerChanges (testResults : list TestResult) : Z :=
  sumZ answerChanges (allAnswers testResults).

(** Lines 206-213: the vector [analyzeResults] builds once its guard at
    lines 193-197 has let it through. *)
Definition features (testResults : list TestResult) : Features :=
  mkFeatures (overallAccuracy testResults)
    (avgResponseTime testResults)
    (maxDelay testResults)
    ((100#1) - overallAccuracy testResults)%Q
    0
    (answerChanges testResults).

(** Lines 193-215: what [analyzeResults] sends to [api.analyzeRisk], if
    anything.  It returns early without a session id or without results. *)
Definition analyzeRequest (s : TestStore) : option (string * Features) :=
  match sessionId s with
  | Some id =>
      if negb (truthyString id) || (len (testResults s) =? 0) then None
      else Some (id, features (testResults s))
  | None => None
  end.

(** Line 225: the level of the default assessment. *)
Definition defaultLevel (overallAccuracy : Q) : RiskLevel :=
  if Qgt_bool overallAccuracy (70#1) then Low
  else if Qgt_bool overallAccuracy (40#1) then Medium
  else High.

(** Lines 257-263; [overallAccuracy] is the page's figure. *)
Definition getStarsEarned (overallAccuracy : Q) : Z :=
  if Qle_bool (80#1) overallAccuracy then 5
  else if Qle_bool (60#1) overallAccuracy then 4
  else if Qle_bool (40#1) overallAccuracy then 3
  else if Qle_bool (20#1) overallAccuracy then 2
  else 1.

(** Lines 243-246, the store's part of [handleRestart]. *)
Definition handleRestart (s : TestStore) : TestStore := resetSession s.

End ResultPage.

(** How much risk a level stands for. *)
Definition riskRank (l : RiskLevel) : Z :=
  match l with
  | Low => 0
  | Medium => 1
  | High => 2
  end.

(** ** The test pages

    What the arithmetic and the memory test page do to their own state and
    to the store when the child selects and submits an answer
    (arithmetic-test/page.tsx, lines 140-147 and 182-238; memory-test/page.tsx,
    lines 144-195).  A callback reads [currentQuestion],
    [currentQuestionIndex] and [questions.length] from the render that
    created it; events are handled one at a time and each store change
    re-renders, so these are the store's values when the callback starts.
    Feedback requests, speech and navigation are left out. *)
Module TestPage.

(** The [useState] cells the two handlers write. *)
Record PageState : Type := mkPageState {
  selectedAnswer : option string;
  showResult : bool;
  answerChanges : Z
}.

Definition freshPage : PageState := mkPageState None false 0.

(** Truthiness of a string: every string but the empty one. *)
Definition truthy (s : string) : bool := negb (String.eqb s "").

(** [handleSelectAnswer]. *)
Definition handleSelectAnswer (answer : string) (ui : PageState) : PageState :=
  if showResult ui then ui
  else
    mkPageState (Some answer) (showResult ui)
      (match selectedAnswer ui with
       | Some sel =>
           if truthy sel && negb (strictEq sel answer)
           then answerChanges ui + 1
           else answerChanges ui
       | None => answerChanges ui
       end).

(** [handleSubmit], with the step that follows the feedback
    ([proceedToNext] on the arithmetic page, the [setTimeout] callback on the
    memory page).  [tSubmit] and [tNext] are the clock readings of
    [submitAnswer] and [nextQuestion]. *)
Definition handleSubmit (tSubmit tNext : Z) (st : PageState * TestStore)
    : PageState * TestStore :=
  let (ui, s) := st in
  match selectedAnswer ui, getCurrentQuestion s with
  | Some sel, Some currentQuestion =>
      if truthy sel then
        let s1 := submitAnswer sel (answerChanges ui) tSubmit s in
        if currentQuestionIndex s <? len (questions s) - 1
        then (mkPageState None false 0, nextQuestion tNext s1)
        else (mkPageState (Some sel) true (answerChanges ui), completeTest s1)
      else st
  | _, _ => st
  end.

(** One question on the page: the child's selections, one after the other,
    then the submission. *)
Definition answerQuestion (q : list string * Z * Z)
    (st : PageState * TestStore) : PageState * TestStore :=
  let '(selections, tSubmit, tNext) := q in
  handleSubmit tSubmit tNext
    (fold_left (fun ui a => handleSelectAnswer a ui) selections (fst st),
     snd st).

Definition answerQuestions (qs : list (list string * Z * Z))
    (st : PageState * TestStore) : PageState * TestStore :=
  fold_left (fun st q => answerQuestion q st) qs st.

(** [addLog] of the arithmetic page (lines 97-99): the newest message
    first, at most ten kept. *)
Definition addLog (msg : string) (prev : list string) : list string :=
  firstn 10 (msg :: prev).

End TestPage.

(** How often a sequence of selections moves to a different option; [prev]
    is the option selected before, if any. *)
Fixpoint switches (prev : option string) (selections : list string) : Z :=
  match selections with
  | [] => 0
  | a :: rest =>
      (match prev with
       | Some p => if TestPage.truthy p && negb (strictEq p a) then 1 else 0
       | None => 0
       end) + switches (Some a) rest
  end.

(** What [submitAnswer] gets for a question answered on the page: the last
    selection and the number of switches. *)
Definition pageStep (q : list string * Z * Z) : string * Z * Z * Z :=
  let '(selections, tSubmit, tNext) := q in
  (last selections "", switches None selections, tSubmit, tNext).

(** A selection sequence that ends on a non-empty option. *)
Definition selectsSomething (q : list string * Z * Z) : Prop :=
  fst (fst q) <> [] /\ last (fst (fst q)) "" <> "".

(** ** The age selection page (age-select/page.tsx, lines 23-44) *)
Module AgeSelectPage.

(** The store's part of [handleContinue]; [response] is the session id
    [api.startSession] returned, [None] when the call threw. *)
Definition handleContinue (selectedAge : option AgeGroup)
    (response : option string) (s : TestStore) : TestStore :=
  match selectedAge with
  | None => s
  | Some age =>
      match response with
      | Some session_id => setAgeGroup age (setSessionId session_id s)
      | None => setAgeGroup age s
      end
  end.

End AgeSelectPage.

(** ** The puzzle card (part_001, lines 299-313) *)
Module PuzzleCard.

Definition optionEq (selectedAnswer : option string) (option : string) : bool :=
  match selectedAnswer with
  | Some sel => strictEq sel option
  | None => false
  end.

Definition getOptionClass (question : Question)
    (selectedAnswer : option string) (showResult : bool) (option : string)
    : string :=
  let className := "option-btn" in
  if optionEq selectedAnswer option then
    if showResult then
      String.append className
        (if strictEq option (correctAnswer question)
         then " correct" else " incorrect")
    else String.append className " selected"
  else if showResult && strictEq option (correctAnswer question) then
    String.append className " correct"
  else className.

End PuzzleCard.

(** ** The progress bar (part_001, lines 471-518) *)
Module ProgressBar.

(** [Math.min(progress, 100)], the width of the bar in per cent. *)
Definition barWidth (progress : Q) : Q :=
  if Qle_bool progress (100#1) then progress else 100#1.

(** [Array.from({ length: totalStars }).map((_, index) => index < earnedStars)]:
    which stars are drawn filled. *)
Definition filledStars (totalStars earnedStars : Z) : list bool :=
  map (fun index => Z.of_nat index <? earnedStars)
      (seq 0 (Z.to_nat totalStars)).

End ProgressBar.

(** ** Basic facts about the primitives *)

Lemma len_nonneg {A : Type} (xs : list A) : 0 <= len xs.
Proof. unfold len. lia. Qed.

Lemma len_nil_iff {A : Type} (xs : list A) : len xs = 0 <-> xs = [].
Proof.
  unfold len. destruct xs as [|x xs]; simpl; split; intro H;
    try reflexivity; try discriminate; lia.
Qed.

Lemma len_app {A : Type} (xs ys : list A) : len (xs ++ ys) = len xs + len ys.
Proof. unfold len. rewrite length_app. lia. Qed.

Lemma len_cons {A : Type} (x : A) (xs : list A) : len (x :: xs) = len xs + 1.
Proof. unfold len. cbn [List.length]. lia. Qed.

Lemma index_some_iff {A : Type} (xs : list A) (i : Z) :
  (exists x, index xs i = Some x) <-> 0 <= i < len xs.
Proof.
  unfold index, len. destruct (Z.ltb_spec i 0) as [Hneg|Hpos].
  - split; [intros [x Hx]; discriminate | lia].
  - split.
    + intros [x Hx].
      assert (Hlt : (Z.to_nat i < List.length xs)%nat)
        by (apply nth_error_Some; rewrite Hx; discriminate).
      lia.
    + intros [_ Hlt].
      destruct (nth_error xs (Z.to_nat i)) as [x|] eqn:E.
      * exists x. reflexivity.
      * apply nth_error_None in E. lia.
Qed.

Lemma strictEq_spec (a b : string) : strictEq a b = true <-> a = b.
Proof. unfold strictEq. apply String.eqb_eq. Qed.

(** What [submitAnswer] does when its guard lets it through. *)
Lemma submitAnswer_active (answer : string) (changes now started : Z)
    (q : Question) (s : TestStore) :
  getCurrentQuestion s = Some q ->
  questionStartTime s = Some started ->
  started <> 0 ->
  submitAnswer answer changes now s =
  mkTestStore (sessionId s) (ageGroup s) (currentTestType s) (questions s)
    (currentQuestionIndex s)
    (answers s ++
       [mkAnswer (questionId q) answer (now - started) changes
          (strictEq answer (correctAnswer q))])
    (testResults s) (riskAssessment s) (questionStartTime s).
Proof.
  unfold getCurrentQuestion, submitAnswer. intros Hq Ht Hnz.
  rewrite Hq, Ht. simpl.
  destruct (Z.eqb_spec started 0) as [E|_]; [contradiction|reflexivity].
Qed.

(** What it does when the guard stops it. *)
Lemma submitAnswer_guarded (answer : string) (changes now : Z) (s : TestStore) :
  getCurrentQuestion s = None \/ falsyTime (questionStartTime s) = true ->
  submitAnswer answer changes now s = s.
Proof.
  unfold getCurrentQuestion, submitAnswer. intros [Hq|Ht].
  - rewrite Hq. reflexivity.
  - rewrite Ht. destruct (index (questions s) (currentQuestionIndex s));
      reflexivity.
Qed.

(** ** Session identity *)

(** C1. [setSessionId id], in any state, stores [id] as the session
    identifier and resets [currentTestType], [questions],
    [currentQuestionIndex], [answers], [testResults], [riskAssessment] and
    [questionStartTime] to null, [], 0, [], [], null and null, whatever they
    held before; [ageGroup] keeps its value. *)
Theorem setSessionId_wipes_session (id : string) (s : TestStore) :
  sessionId (setSessionId id s) = Some id /\
  currentTestType (setSessionId id s) = None /\
  questions (setSessionId id s) = [] /\
  currentQuestionIndex (setSessionId id s) = 0 /\
  answers (setSessionId id s) = [] /\
  testResults (setSessionId id s) = [] /\
  riskAssessment (setSessionId id s) = None /\
  questionStartTime (setSessionId id s) = None /\
  ageGroup (setSessionId id s) = ageGroup s.
Proof. repeat split. Qed.

(** ** Submitting an answer *)

(** [===] tells upper from lower case and does not trim. *)
Example strictEq_case_sensitive : strictEq "bear" "Bear" = false.
Proof. reflexivity. Qed.

Example strictEq_no_trimming : strictEq "Bear " "Bear" = false.
Proof. reflexivity. Qed.

(** Every stamp the running store holds is a clock reading. *)
Lemma running_stamp (s : TestStore) :
  running s -> forall t, questionStartTime s = Some t -> clockReading t.
Proof.
  induction 1 as [|act s Hrun IH Hclock]; intros t Ht.
  - discriminate.
  - destruct act as [id|age|ty qs now|ans c now|now| |r| ].
    + discriminate.
    + apply IH. exact Ht.
    + simpl in Ht, Hclock. injection Ht as <-. exact Hclock.
    + assert (Hframe : questionStartTime (submitAnswer ans c now s) =
                       questionStartTime s).
      { clear. unfold submitAnswer.
        destruct (index (questions s) (currentQuestionIndex s));
          [|reflexivity].
        destruct (falsyTime (questionStartTime s)); [reflexivity|].
        destruct (questionStartTime s) eqn:E; simpl; rewrite ?E;
          reflexivity. }
      apply IH. rewrite <- Hframe. exact Ht.
    + simpl in Ht, Hclock. unfold nextQuestion in Ht.
      destruct (currentQuestionIndex s <? len (questions s) - 1);
        [|apply IH; exact Ht].
      simpl in Ht. injection Ht as <-. exact Hclock.
    + simpl in Ht. unfold completeTest in Ht.
      destruct (currentTestType s); [discriminate|apply IH; exact Ht].
    + apply IH. exact Ht.
    + discriminate.
Qed.

(** Off the clock.  The guard [!questionStartTime] is a truthiness test, so
    it also stops the call on the stamp 0, which no clock reading is: a
    store stamped 0 records nothing. *)
Example submitAnswer_ignores_zero_stamp :
  let s := startTest NumberComparison [q1] 0 initialState in
  getCurrentQuestion s = Some q1 /\
  questionStartTime s = Some 0 /\
  submitAnswer "Bear" 0 1500 s = s /\
  answers (submitAnswer "Bear" 0 1500 s) <>
  answers s ++ [mkAnswer "q1" "Bear" 1500 0 true].
Proof.
  repeat split. simpl. discriminate.
Qed.

(** C2.  In the running store, whenever there is a current question and a
    recorded [questionStartTime], [submitAnswer a c] appends exactly one
    [Answer] at the end of [answers]; it carries the current question's
    [questionId], [selectedAnswer = a], [answerChanges = c] and
    [correct = true] exactly when [a] and the question's [correctAnswer] are
    the same string (no case folding, no trimming); every other field of the
    store, [currentQuestionIndex] among them, keeps its value. *)
Theorem submitAnswer_appends_one (a : string) (c now : Z) (q : Question)
    (s : TestStore) :
  running s ->
  getCurrentQuestion s = Some q ->
  questionStartTime s <> None ->
  exists ans,
    answers (submitAnswer a c now s) = answers s ++ [ans] /\
    ansQuestionId ans = questionId q /\
    selectedAnswer ans = a /\
    answerChanges ans = c /\
    (correct ans = true <-> a = correctAnswer q) /\
    currentQuestionIndex (submitAnswer a c now s) = currentQuestionIndex s /\
    questions (submitAnswer a c now s) = questions s /\
    sessionId (submitAnswer a c now s) = sessionId s /\
    ageGroup (submitAnswer a c now s) = ageGroup s /\
    currentTestType (submitAnswer a c now s) = currentTestType s /\
    testResults (submitAnswer a c now s) = testResults s /\
    riskAssessment (submitAnswer a c now s) = riskAssessment s /\
    questionStartTime (submitAnswer a c now s) = questionStartTime s.
Proof.
  intros Hrun Hq Hrec.
  destruct (questionStartTime s) as [started|] eqn:Ht; [|contradiction].
  assert (Hnz : started <> 0).
  { pose proof (running_stamp s Hrun started Ht) as Hclock.
    unfold clockReading in Hclock. lia. }
  rewrite (submitAnswer_active a c now started q s Hq Ht Hnz).
  eexists. simpl. split; [reflexivity|].
  simpl. repeat split; try reflexivity; try apply strictEq_spec.
  exact Ht.
Qed.

Lemma submitAnswer_appends_one_witness :
  exists ans,
    answers (submitAnswer "bear" 2 1500
               (perform (StartTest NumberComparison [q1; q2] 1000)
                  initialState))
    = [] ++ [ans] /\
    ansQuestionId ans = "q1"%string /\
    selectedAnswer ans = "bear"%string /\
    answerChanges ans = 2 /\
    (correct ans = true <-> "bear"%string = "Bear"%string).
Proof.
  destruct (submitAnswer_appends_one "bear" 2 1500 q1
              (perform (StartTest NumberComparison [q1; q2] 1000) initialState))
    as [ans (H1 & H2 & H3 & H4 & H5 & _)].
  - apply running_step; [apply running_init|]. simpl. unfold clockReading. lia.
  - reflexivity.
  - simpl. discriminate.
  - exists ans. repeat split; assumption || apply H5.
Defined.

(** C3, as stated, fails: nothing clamps.  With the question shown at clock
    1000 and the answer submitted at clock 400, the recorded
    [responseTimeMs] is -600. *)
Lemma submitAnswer_negative_response_time :
  let s := startTest NumberComparison [q1] 1000 initialState in
  answers (submitAnswer "Bear" 0 400 s) = [mkAnswer "q1" "Bear" (-600) 0 true] /\
  exists ans, In ans (answers (submitAnswer "Bear" 0 400 s)) /\
              ~ 0 <= responseTimeMs ans.
Proof.
  simpl. split; [reflexivity|].
  eexists. split; [left; reflexivity|]. simpl. lia.
Qed.

(** C3, amended.  Every [Answer] that [submitAnswer] records has
    [responseTimeMs = now - questionStartTime], the plain difference with no
    clamping: it is non-negative exactly when the clock has not gone back
    behind [questionStartTime]. *)
Theorem submitAnswer_response_time (a : string) (c now : Z) (s : TestStore)
    (ans : Answer) :
  answers (submitAnswer a c now s) = answers s ++ [ans] ->
  exists started,
    questionStartTime s = Some started /\
    responseTimeMs ans = now - started /\
    (0 <= responseTimeMs ans <-> started <= now).
Proof.
  unfold submitAnswer. intros Hrec.
  assert (Hsame : answers s <> answers s ++ [ans]).
  { intros E. apply (f_equal (@List.length Answer)) in E.
    rewrite length_app in E. simpl in E. lia. }
  destruct (index (questions s) (currentQuestionIndex s)) as [q|];
    [|contradiction].
  destruct (falsyTime (questionStartTime s)); [contradiction|].
  destruct (questionStartTime s) as [started|]; [|contradiction].
  simpl in Hrec. apply app_inv_head in Hrec. injection Hrec as <-.
  exists started. simpl. split; [reflexivity|]. split; [reflexivity|lia].
Qed.

Lemma submitAnswer_response_time_witness :
  exists started,
    questionStartTime (startTest NumberComparison [q1] 1000 initialState)
    = Some started /\
    responseTimeMs (mkAnswer "q1" "Bear" 3200 0 true) = 4200 - started /\
    (0 <= responseTimeMs (mkAnswer "q1" "Bear" 3200 0 true)
     <-> started <= 4200).
Proof.
  apply (submitAnswer_response_time "Bear" 0 4200
           (startTest NumberComparison [q1] 1000 initialState)
           (mkAnswer "q1" "Bear" 3200 0 true)).
  reflexivity.
Defined.

(** Left out, [answerChanges] is 0. *)
Example submitAnswerDefault_no_changes :
  map answerChanges
    (answers (submitAnswerDefault "Bear" 1500
                (startTest NumberComparison [q1] 1000 initialState)))
  = [0].
Proof. reflexivity. Qed.

(** ** The silent guards *)

(** C7. [submitAnswer] with no current question or no recorded
    [questionStartTime], and [completeTest] with [currentTestType] null,
    return without an error and leave the store as it was, every field
    included. *)
Theorem guarded_calls_change_nothing (s : TestStore) :
  (forall a c now,
     getCurrentQuestion s = None \/ questionStartTime s = None ->
     submitAnswer a c now s = s) /\
  (currentTestType s = None -> completeTest s = s).
Proof.
  split.
  - intros a c now [Hq|Ht]; apply submitAnswer_guarded.
    + left. exact Hq.
    + right. rewrite Ht. reflexivity.
  - intros Hty. unfold completeTest. rewrite Hty. reflexivity.
Qed.

Lemma guarded_calls_change_nothing_witness :
  submitAnswer "Bear" 0 1500 initialState = initialState /\
  completeTest initialState = initialState.
Proof.
  destruct (guarded_calls_change_nothing initialState) as [Hsubmit Hcomplete].
  split.
  - apply Hsubmit. left. reflexivity.
  - apply Hcomplete. reflexivity.
Defined.

(** ** Percentages *)

Lemma percent_bounds (n k : Z) :
  1 <= n <= k -> (0 < percent n k)%Q /\ (percent n k <= 100#1)%Q.
Proof.
  intros [Hn Hk]. unfold percent.
  assert (Hkpos : (0 < inject_Z k)%Q)
    by (change 0%Q with (inject_Z 0); rewrite <- Zlt_Qlt; lia).
  assert (Hnpos : (0 < inject_Z n)%Q)
    by (change 0%Q with (inject_Z 0); rewrite <- Zlt_Qlt; lia).
  split.
  - apply Qmult_lt_0_compat; [|reflexivity].
    apply Qlt_shift_div_l; [exact Hkpos|].
    rewrite Qmult_0_l. exact Hnpos.
  - setoid_replace (100#1)%Q with (1 * (100#1))%Q at 2 by ring.
    apply Qmult_le_compat_r; [|discriminate].
    apply Qle_shift_div_r; [exact Hkpos|].
    rewrite Qmult_1_l. rewrite <- Zle_Qle. exact Hk.
Qed.

Lemma getProgress_percent (s : TestStore) :
  questions s <> [] ->
  getProgress s = percent (currentQuestionIndex s + 1) (len (questions s)).
Proof.
  intros Hne. unfold getProgress, percent.
  destruct (Z.eqb_spec (len (questions s)) 0) as [E|_]; [|reflexivity].
  apply len_nil_iff in E. contradiction.
Qed.

Lemma getProgress_empty (s : TestStore) :
  questions s = [] -> getProgress s = 0%Q.
Proof. intros E. unfold getProgress. rewrite E. reflexivity. Qed.

(** ** The cursor invariant *)

Lemma cursorInRange_fresh (qs : list Question) (s : TestStore) :
  questions s = qs -> currentQuestionIndex s = 0 -> cursorInRange s.
Proof.
  intros Hq Hi. unfold cursorInRange. rewrite Hq, Hi. split.
  - reflexivity.
  - intros Hne. pose proof (len_nonneg qs) as H0.
    assert (len qs <> 0) by (rewrite len_nil_iff; exact Hne). lia.
Qed.

Lemma submitAnswer_frame (a : string) (c now : Z) (s : TestStore) :
  questions (submitAnswer a c now s) = questions s /\
  currentQuestionIndex (submitAnswer a c now s) = currentQuestionIndex s /\
  currentTestType (submitAnswer a c now s) = currentTestType s /\
  testResults (submitAnswer a c now s) = testResults s /\
  questionStartTime (submitAnswer a c now s) = questionStartTime s.
Proof.
  unfold submitAnswer.
  destruct (index (questions s) (currentQuestionIndex s)) as [q|];
    [|repeat split; reflexivity].
  destruct (falsyTime (questionStartTime s)); [repeat split; reflexivity|].
  destruct (questionStartTime s) as [started|] eqn:E; simpl;
    rewrite ?E; repeat split; reflexivity.
Qed.

Lemma nextQuestion_frame (now : Z) (s : TestStore) :
  questions (nextQuestion now s) = questions s /\
  answers (nextQuestion now s) = answers s /\
  currentTestType (nextQuestion now s) = currentTestType s /\
  testResults (nextQuestion now s) = testResults s.
Proof.
  unfold nextQuestion.
  destruct (currentQuestionIndex s <? len (questions s) - 1); repeat split.
Qed.

Lemma perform_cursorInRange (a : Action) (s : TestStore) :
  cursorInRange s -> cursorInRange (perform a s).
Proof.
  intros Hs. destruct a as [id|age|ty qs now|ans c now|now| |r| ]; simpl.
  - apply (cursorInRange_fresh []); reflexivity.
  - exact Hs.
  - apply (cursorInRange_fresh qs); reflexivity.
  - destruct (submitAnswer_frame ans c now s) as (Hq & Hi & _).
    unfold cursorInRange. rewrite Hq, Hi. exact Hs.
  - unfold nextQuestion.
    destruct (Z.ltb_spec (currentQuestionIndex s) (len (questions s) - 1))
      as [Hlt|Hge]; [|exact Hs].
    destruct Hs as [Hnil Hcons]. unfold cursorInRange. simpl. split.
    + intros E. rewrite E in Hlt. specialize (Hnil E).
      unfold len in Hlt. simpl in Hlt. lia.
    + intros Hne. specialize (Hcons Hne). lia.
  - unfold completeTest. destruct (currentTestType s); [|exact Hs].
    apply (cursorInRange_fresh []); reflexivity.
  - exact Hs.
  - apply (cursorInRange_fresh []); reflexivity.
Qed.

Lemma reachable_cursorInRange (s : TestStore) :
  reachable s -> cursorInRange s.
Proof.
  induction 1 as [|a s Hreach IH].
  - apply (cursorInRange_fresh []); reflexivity.
  - apply perform_cursorInRange. exact IH.
Qed.

(** C10. In every state the store can reach from the initial one by its
    eight actions, in any order and with any arguments and clock readings,
    [currentQuestionIndex] is 0 when [questions] is empty and lies in
    [0 .. len(questions) - 1] otherwise; so [getCurrentQuestion] returns a
    question whenever [questions] is non-empty, and [getProgress] never
    exceeds 100. *)
Theorem cursor_stays_in_range (s : TestStore) :
  reachable s ->
  (questions s = [] -> currentQuestionIndex s = 0) /\
  (questions s <> [] ->
     0 <= currentQuestionIndex s <= len (questions s) - 1) /\
  (questions s <> [] -> exists q, getCurrentQuestion s = Some q) /\
  (getProgress s <= 100#1)%Q.
Proof.
  intros Hreach. destruct (reachable_cursorInRange s Hreach) as [Hnil Hcons].
  split; [exact Hnil|]. split; [exact Hcons|]. split.
  - intros Hne. apply index_some_iff. specialize (Hcons Hne). lia.
  - destruct (questions s) as [|q qs] eqn:E.
    + rewrite getProgress_empty by exact E. discriminate.
    + assert (Hne : questions s <> []) by (rewrite E; discriminate).
      rewrite getProgress_percent by exact Hne.
      apply percent_bounds. rewrite <- E in Hcons. specialize (Hcons Hne). lia.
Qed.

Lemma cursor_stays_in_range_witness :
  let s := perform (NextQuestion 2000)
             (perform (StartTest NumberComparison [q1; q2] 1000) initialState) in
  (questions s = [] -> currentQuestionIndex s = 0) /\
  (questions s <> [] ->
     0 <= currentQuestionIndex s <= len (questions s) - 1) /\
  (questions s <> [] -> exists q, getCurrentQuestion s = Some q) /\
  (getProgress s <= 100#1)%Q.
Proof.
  apply cursor_stays_in_range.
  apply reachable_step. apply reachable_step. apply reachable_init.
Defined.

(** ** Progress *)

Lemma body_cursor (body : list BodyAction) (s : TestStore) :
  currentQuestionIndex s + nextCalls body < len (questions s) ->
  questions (run (map bodyAction body) s) = questions s /\
  currentQuestionIndex (run (map bodyAction body) s) =
  currentQuestionIndex s + nextCalls body.
Proof.
  unfold run, nextCalls. revert s.
  induction body as [|b body IH]; intros s Hlt.
  - simpl. unfold len. simpl. split; [reflexivity|lia].
  - pose proof (len_nonneg (filter isNext body)) as Hrest.
    destruct b as [a c now|now]; cbn [map fold_left bodyAction perform];
      cbn [filter isNext] in Hlt |- *.
    + destruct (submitAnswer_frame a c now s) as (Hq & Hi & _).
      destruct (IH (submitAnswer a c now s)) as [Hq' Hi'].
      * rewrite Hq, Hi. exact Hlt.
      * rewrite Hq', Hi', Hq, Hi. split; reflexivity.
    + rewrite len_cons in Hlt |- *.
      destruct (nextQuestion_frame now s) as (Hq & _).
      assert (Hi : currentQuestionIndex (nextQuestion now s) =
                   currentQuestionIndex s + 1).
      { unfold nextQuestion.
        destruct (Z.ltb_spec (currentQuestionIndex s) (len (questions s) - 1));
          [reflexivity|lia]. }
      destruct (IH (nextQuestion now s)) as [Hq' Hi'].
      * rewrite Hq, Hi. lia.
      * rewrite Hq', Hi', Hq, Hi. split; [reflexivity|lia].
Qed.

(** C5. After [startTest] with K >= 1 questions and j < K calls of
    [nextQuestion] (with or without submissions in between), [getProgress]
    is (j+1)/K*100; [nextQuestion] at [currentQuestionIndex = K - 1] changes
    nothing; [getProgress] is 0 when [questions] is empty and otherwise, in
    every state the store can reach, a percentage in (0, 100]. *)
Theorem progress_follows_cursor :
  (forall (s : TestStore) (ty : TestType) (qs : list Question) (t0 : Z)
          (body : list BodyAction),
     1 <= len qs -> nextCalls body < len qs ->
     getProgress (run (map bodyAction body) (startTest ty qs t0 s)) =
     (inject_Z (nextCalls body + 1) / inject_Z (len qs) * (100#1))%Q) /\
  (forall (s : TestStore) (now : Z),
     currentQuestionIndex s = len (questions s) - 1 ->
     nextQuestion now s = s) /\
  (forall s : TestStore, questions s = [] -> getProgress s = 0%Q) /\
  (forall s : TestStore,
     reachable s -> questions s <> [] ->
     (0 < getProgress s)%Q /\ (getProgress s <= 100#1)%Q).
Proof.
  split; [|split; [|split]].
  - intros s ty qs t0 body HK Hj.
    destruct (body_cursor body (startTest ty qs t0 s)) as [Hq Hi].
    + simpl. lia.
    + simpl in Hq, Hi. unfold getProgress. rewrite Hq, Hi.
      destruct (Z.eqb_spec (len qs) 0) as [E|_]; [lia|].
      reflexivity.
  - intros s now Hlast. unfold nextQuestion.
    destruct (Z.ltb_spec (currentQuestionIndex s) (len (questions s) - 1));
      [lia|reflexivity].
  - exact getProgress_empty.
  - intros s Hreach Hne.
    destruct (reachable_cursorInRange s Hreach) as [_ Hcons].
    specialize (Hcons Hne).
    rewrite getProgress_percent by exact Hne.
    apply percent_bounds. lia.
Qed.

Lemma progress_follows_cursor_witness :
  let body := [BSubmit "Bear" 0 1500; BNext 2000; BNext 3000] in
  let s := run (map bodyAction body)
             (startTest NumberComparison [q1; q2; q3] 1000 initialState) in
  getProgress s =
  (inject_Z (nextCalls body + 1) / inject_Z (len [q1; q2; q3]) * (100#1))%Q /\
  nextQuestion 4000 s = s /\
  getProgress initialState = 0%Q /\
  (0 < getProgress (perform (StartTest NumberComparison [q1; q2; q3] 1000)
                      initialState))%Q.
Proof.
  destruct progress_follows_cursor as (Hadv & Hlast & Hnil & Hrange).
  split; [|split; [|split]].
  - apply Hadv; vm_compute; [discriminate|reflexivity].
  - apply Hlast. reflexivity.
  - apply Hnil. reflexivity.
  - apply Hrange.
    + apply reachable_step. apply reachable_init.
    + simpl. discriminate.
Defined.

(** Two advances in a three-question test: 100 per cent. *)
Example progress_at_last_question :
  (getProgress
     (run [NextQuestion 2000; NextQuestion 3000]
        (startTest NumberComparison [q1; q2; q3] 1000 initialState))
   == 100#1)%Q.
Proof. reflexivity. Qed.

(** ** Completing a test *)

Lemma sumZ_from {A : Type} (f : A -> Z) (xs : list A) (acc : Z) :
  fold_left (fun sum a => sum + f a) xs acc = acc + totalSpec (map f xs).
Proof.
  revert acc. induction xs as [|x xs IH]; intros acc; simpl.
  - lia.
  - rewrite IH. lia.
Qed.

Lemma sumZ_totalSpec {A : Type} (f : A -> Z) (xs : list A) :
  sumZ f xs = totalSpec (map f xs).
Proof. unfold sumZ. rewrite sumZ_from. lia. Qed.

Lemma correctCount_countCorrectSpec (ans : list Answer) :
  correctCount ans = countCorrectSpec ans.
Proof.
  unfold correctCount, countCorrectSpec, len. f_equal.
  induction ans as [|a ans IH]; simpl; [reflexivity|].
  destruct (correct a); simpl.
  - rewrite IH. reflexivity.
  - exact IH.
Qed.

Lemma run_app (xs ys : list Action) (s : TestStore) :
  run (xs ++ ys) s = run ys (run xs s).
Proof. unfold run. apply fold_left_app. Qed.

Lemma body_frame (body : list BodyAction) (s : TestStore) :
  currentTestType (run (map bodyAction body) s) = currentTestType s /\
  testResults (run (map bodyAction body) s) = testResults s.
Proof.
  unfold run. revert s. induction body as [|b body IH]; intros s; simpl.
  - split; reflexivity.
  - destruct (IH (perform (bodyAction b) s)) as [Hty Hres].
    rewrite Hty, Hres.
    destruct b as [a c now|now]; simpl.
    + destruct (submitAnswer_frame a c now s) as (_ & _ & H1 & H2 & _).
      split; assumption.
    + destruct (nextQuestion_frame now s) as (_ & _ & H1 & H2).
      split; assumption.
Qed.

Lemma testRun_appends (m : TestRun) (s : TestStore) :
  exists r,
    testResults (run (testRunActions m) s) = testResults s ++ [r] /\
    resTestType r = runType m.
Proof.
  unfold testRunActions.
  change (StartTest (runType m) (runQuestions m) (runStart m)
            :: map bodyAction (runBody m) ++ [CompleteTest])
    with ([StartTest (runType m) (runQuestions m) (runStart m)]
            ++ map bodyAction (runBody m) ++ [CompleteTest]).
  rewrite !run_app.
  set (s1 := run [StartTest (runType m) (runQuestions m) (runStart m)] s).
  destruct (body_frame (runBody m) s1) as [Hty Hres].
  set (s2 := run (map bodyAction (runBody m)) s1) in *.
  simpl. unfold completeTest. rewrite Hty. simpl.
  eexists. rewrite Hres. simpl. split; reflexivity.
Qed.

Lemma runModules_appends (ms : list TestRun) (s : TestStore) :
  exists rs,
    testResults (runModules ms s) = testResults s ++ rs /\
    map resTestType rs = map runType ms.
Proof.
  unfold runModules. revert s.
  induction ms as [|m ms IH]; intros s; cbn [flat_map].
  - exists []. simpl. rewrite app_nil_r. split; reflexivity.
  - rewrite run_app.
    destruct (testRun_appends m s) as (r & Hr & Hty).
    destruct (IH (run (testRunActions m) s)) as (rs & Hrs & Htys).
    exists (r :: rs). rewrite Hrs, Hr, <- app_assoc. simpl.
    rewrite Hty, Htys. split; reflexivity.
Qed.

(** C4. With [currentTestType] non-null, [completeTest] appends exactly one
    [TestResult] at the end of [testResults]: its [testType] is
    [currentTestType], [totalQuestions] is [len(questions)],
    [correctAnswers] the number of answers with [correct = true],
    [avgResponseTime] the arithmetic mean of [responseTimeMs] over the
    answers (0 without answers), and it holds the whole answer list; the
    earlier results stay in place, [currentTestType], [questions],
    [currentQuestionIndex], [answers] and [questionStartTime] return to
    null, [], 0, [], null, and [riskAssessment] survives.  So N test modules,
    each started by its own [startTest] and ended by [completeTest], add N
    results in the order of their test types. *)
Theorem completeTest_appends_result :
  (forall (s : TestStore) (ty : TestType),
     currentTestType s = Some ty ->
     exists r,
       completeTest s =
       mkTestStore (sessionId s) (ageGroup s) None [] 0 []
         (testResults s ++ [r]) (riskAssessment s) None /\
       resTestType r = ty /\
       totalQuestions r = len (questions s) /\
       correctAnswers r = countCorrectSpec (answers s) /\
       (answers s = [] -> avgResponseTime r = 0%Q) /\
       (answers s <> [] ->
        avgResponseTime r =
        (inject_Z (totalSpec (map responseTimeMs (answers s)))
           / inject_Z (len (answers s)))%Q) /\
       resAnswers r = answers s) /\
  (forall (ms : list TestRun) (s : TestStore),
     exists rs,
       testResults (runModules ms s) = testResults s ++ rs /\
       map resTestType rs = map runType ms /\
       len rs = len ms) /\
  (forall ms : list TestRun,
     len (testResults (runModules ms initialState)) = len ms /\
     map resTestType (testResults (runModules ms initialState)) =
     map runType ms).
Proof.
  split; [|split].
  - intros s ty Hty. unfold completeTest. rewrite Hty.
    eexists. split; [reflexivity|]. simpl.
    split; [reflexivity|]. split; [reflexivity|].
    split; [apply correctCount_countCorrectSpec|].
    split; [|split; [|reflexivity]].
    + intros E. rewrite E. reflexivity.
    + intros Hne. unfold avgTime.
      destruct (Z.ltb_spec 0 (len (answers s))) as [_|Hle].
      * rewrite sumZ_totalSpec. reflexivity.
      * exfalso. apply Hne. apply len_nil_iff.
        pose proof (len_nonneg (answers s)). lia.
  - intros ms s. destruct (runModules_appends ms s) as (rs & Hrs & Htys).
    exists rs. split; [exact Hrs|]. split; [exact Htys|].
    unfold len. rewrite <- (length_map resTestType rs), Htys, length_map.
    reflexivity.
  - intros ms. destruct (runModules_appends ms initialState) as (rs & Hrs & Htys).
    simpl in Hrs. rewrite Hrs. split; [|exact Htys].
    unfold len. rewrite <- (length_map resTestType rs), Htys, length_map.
    reflexivity.
Qed.

Lemma completeTest_appends_result_witness :
  exists r,
    completeTest
      (submitAnswer "Bear" 1 3500
         (startTest MentalArithmetic [q1] 1000 initialState)) =
    mkTestStore None None None [] 0 [] ([] ++ [r]) None None /\
    resTestType r = MentalArithmetic /\
    totalQuestions r = 1 /\
    correctAnswers r = 1.
Proof.
  destruct completeTest_appends_result as [Hone _].
  destruct (Hone (submitAnswer "Bear" 1 3500
                    (startTest MentalArithmetic [q1] 1000 initialState))
                 MentalArithmetic eq_refl)
    as (r & H1 & H2 & H3 & H4 & _).
  exists r. split; [exact H1|]. split; [exact H2|].
  split; [exact H3|exact H4].
Defined.

(** A run of the store through two modules, for the record. *)
Example two_modules_two_results :
  map resTestType
    (testResults
       (runModules
          [ mkTestRun NumberComparison [q1; q2] 1000
              [BSubmit "Bear" 0 2000; BNext 2100; BSubmit "Bear" 1 5100];
            mkTestRun MemoryRecall [q3] 9000 [BSubmit "Bear" 0 9900] ]
          initialState))
  = [NumberComparison; MemoryRecall].
Proof. reflexivity. Qed.

(** ** The completion predicate *)

Lemma isTestComplete_iff (s : TestStore) :
  isTestComplete s = true <->
  0 < len (questions s) /\ len (answers s) = len (questions s).
Proof.
  unfold isTestComplete. rewrite andb_true_iff, Z.ltb_lt, Z.eqb_eq.
  reflexivity.
Qed.

Lemma isTestComplete_false_iff (s : TestStore) :
  isTestComplete s = false <->
  ~ (0 < len (questions s) /\ len (answers s) = len (questions s)).
Proof.
  rewrite <- isTestComplete_iff. destruct (isTestComplete s); split;
    intros H; try reflexivity; try discriminate; try (intros H'; discriminate).
  exfalso. apply H. reflexivity.
Qed.

Lemma inOrder_last (a : string) (c ts tn : Z) :
  inOrder [(a, c, ts, tn)] = [SubmitAnswer a c ts].
Proof. reflexivity. Qed.

Lemma inOrder_more (a : string) (c ts tn : Z) (y : string * Z * Z * Z)
    (rest : list (string * Z * Z * Z)) :
  inOrder ((a, c, ts, tn) :: y :: rest) =
  SubmitAnswer a c ts :: NextQuestion tn :: inOrder (y :: rest).
Proof. reflexivity. Qed.

(** A submission on a question whose stamp is not 0 adds one answer. *)
Lemma submitAnswer_counts (a : string) (c now started : Z) (s : TestStore) :
  0 <= currentQuestionIndex s < len (questions s) ->
  questionStartTime s = Some started -> started <> 0 ->
  len (answers (submitAnswer a c now s)) = len (answers s) + 1.
Proof.
  intros Hrange Ht Hnz.
  destruct (proj2 (index_some_iff (questions s) (currentQuestionIndex s)) Hrange)
    as [q Hq].
  rewrite (submitAnswer_active a c now started q s Hq Ht Hnz). simpl.
  rewrite len_app. reflexivity.
Qed.

Lemma nextQuestion_moves (now : Z) (s : TestStore) :
  currentQuestionIndex s < len (questions s) - 1 ->
  currentQuestionIndex (nextQuestion now s) = currentQuestionIndex s + 1 /\
  questionStartTime (nextQuestion now s) = Some now.
Proof.
  intros Hlt. unfold nextQuestion.
  destruct (Z.ltb_spec (currentQuestionIndex s) (len (questions s) - 1));
    [split; reflexivity|lia].
Qed.

Lemma inOrder_prefixes (steps : list (string * Z * Z * Z)) :
  forall (s : TestStore) (started : Z),
    questionStartTime s = Some started -> started <> 0 ->
    Forall (fun t => t <> 0) (advanceStamps steps) ->
    0 <= currentQuestionIndex s ->
    0 < len (questions s) ->
    len (answers s) = currentQuestionIndex s ->
    currentQuestionIndex s + len steps = len (questions s) ->
    forall pre post : list Action,
      inOrder steps = pre ++ post ->
      isTestComplete (run pre s) =
      match post with [] => true | _ :: _ => false end.
Proof.
  induction steps as [|[[[a c] ts] tn] rest IH];
    intros s started Hst Hnz Hall Hi0 Hpos Hans Hlen pre post Hsplit.
  - simpl in Hsplit. symmetry in Hsplit.
    apply app_eq_nil in Hsplit. destruct Hsplit as [-> ->]. simpl.
    apply isTestComplete_iff. unfold len in Hlen at 1. simpl in Hlen. lia.
  - rewrite len_cons in Hlen. pose proof (len_nonneg rest) as Hrest.
    assert (Hrange : 0 <= currentQuestionIndex s < len (questions s)) by lia.
    pose proof (submitAnswer_counts a c ts started s Hrange Hst Hnz) as Hcount.
    destruct (submitAnswer_frame a c ts s) as (Hq1 & Hi1 & _ & _ & Ht1).
    destruct rest as [|y rest].
    + rewrite inOrder_last in Hsplit.
      destruct pre as [|p pre]; simpl in Hsplit.
      * subst post. simpl. apply isTestComplete_false_iff.
        unfold len in Hlen at 1. simpl in Hlen. lia.
      * injection Hsplit as <- Hnil. symmetry in Hnil.
        apply app_eq_nil in Hnil. destruct Hnil as [-> ->]. simpl.
        apply isTestComplete_iff. rewrite Hq1, Hcount.
        unfold len in Hlen at 1. simpl in Hlen. lia.
    + rewrite inOrder_more in Hsplit. rewrite len_cons in Hlen.
      pose proof (len_nonneg rest) as Hrest'.
      destruct pre as [|p1 pre]; simpl in Hsplit.
      * subst post. simpl. apply isTestComplete_false_iff. lia.
      * injection Hsplit as <- Hsplit.
        destruct pre as [|p2 pre]; simpl in Hsplit.
        -- subst post. simpl. apply isTestComplete_false_iff.
           rewrite Hq1, Hcount. lia.
        -- injection Hsplit as <- Hsplit.
           change (run (SubmitAnswer a c ts :: NextQuestion tn :: pre) s)
             with (run pre (nextQuestion tn (submitAnswer a c ts s))).
           destruct (nextQuestion_frame tn (submitAnswer a c ts s))
             as (Hq2 & Ha2 & _).
           destruct (nextQuestion_moves tn (submitAnswer a c ts s))
             as [Hi2 Ht2]; [rewrite Hq1, Hi1; lia|].
           unfold advanceStamps in Hall. simpl in Hall.
           apply Forall_cons_iff in Hall. destruct Hall as [Htn Hall].
           apply (IH _ tn); try assumption.
           ++ rewrite Hi2, Hi1. lia.
           ++ rewrite Hq2, Hq1. exact Hpos.
           ++ rewrite Ha2, Hcount, Hi2, Hi1. lia.
           ++ rewrite Hi2, Hi1, Hq2, Hq1, len_cons. lia.
Qed.

Lemma inOrder_onClock_stamps (steps : list (string * Z * Z * Z)) :
  Forall onClock (inOrder steps) ->
  Forall (fun t => t <> 0) (advanceStamps steps).
Proof.
  induction steps as [|[[[a c] ts] tn] rest IH]; intros Hclock.
  - constructor.
  - destruct rest as [|y rest].
    + constructor.
    + rewrite inOrder_more in Hclock.
      apply Forall_cons_iff in Hclock. destruct Hclock as [_ Hclock].
      apply Forall_cons_iff in Hclock. destruct Hclock as [Htn Hclock].
      specialize (IH Hclock).
      change (advanceStamps ((a, c, ts, tn) :: y :: rest))
        with (tn :: advanceStamps (y :: rest)).
      constructor; [|exact IH].
      simpl in Htn. unfold clockReading in Htn. lia.
Qed.

(** Off the clock.  A one-question test stamped 0, which no clock reading
    is, stays incomplete after its one [submitAnswer] call: the guard takes
    the stamp for a missing one and the call records nothing. *)
Example inOrder_zero_stamp_never_complete :
  let s := startTest NumberComparison [q1] 0 initialState in
  len (questions s) = 1 /\
  inOrder [("Bear", 0, 1500, 0)] = [SubmitAnswer "Bear" 0 1500] /\
  isTestComplete (run (inOrder [("Bear", 0, 1500, 0)]) s) = false.
Proof. repeat split. Qed.

(** C6.  [isTestComplete] is true exactly when [len(questions) > 0] and
    [len(answers) = len(questions)].  For a test of K >= 1 questions run on
    the clock and answered in order with one [submitAnswer] call per
    question, it is false at every point before the K-th submission and true
    after it. *)
Theorem isTestComplete_counts_answers :
  (forall s : TestStore,
     isTestComplete s = true <->
     0 < len (questions s) /\ len (answers s) = len (questions s)) /\
  (forall (s : TestStore) (ty : TestType) (qs : list Question) (t0 : Z)
          (steps : list (string * Z * Z * Z)),
     qs <> [] -> len steps = len qs ->
     Forall onClock (StartTest ty qs t0 :: inOrder steps) ->
     forall pre post : list Action,
       inOrder steps = pre ++ post ->
       isTestComplete (run pre (startTest ty qs t0 s)) =
       match post with [] => true | _ :: _ => false end).
Proof.
  split; [exact isTestComplete_iff|].
  intros s ty qs t0 steps Hne Hlen Hclock pre post Hsplit.
  apply Forall_cons_iff in Hclock. destruct Hclock as [Ht0 Hsteps].
  simpl in Ht0. unfold clockReading in Ht0.
  pose proof (inOrder_onClock_stamps steps Hsteps) as Hall.
  assert (Hpos : 0 < len qs).
  { pose proof (len_nonneg qs). assert (len qs <> 0) by
      (rewrite len_nil_iff; exact Hne). lia. }
  apply (inOrder_prefixes steps (startTest ty qs t0 s) t0);
    simpl; try assumption; try reflexivity; lia.
Qed.

Lemma isTestComplete_counts_answers_witness :
  let s := startTest NumberComparison [q1; q2] 1000 initialState in
  let steps := [("Bear", 0, 2000, 2100); ("Rabbit", 1, 5000, 0)] in
  isTestComplete (run [SubmitAnswer "Bear" 0 2000; NextQuestion 2100] s) = false /\
  isTestComplete (run (inOrder steps) s) = true.
Proof.
  destruct isTestComplete_counts_answers as [_ Hrun].
  split.
  - apply (Hrun initialState NumberComparison [q1; q2] 1000
             [("Bear", 0, 2000, 2100); ("Rabbit", 1, 5000, 0)]
             ltac:(discriminate) eq_refl
             ltac:(repeat constructor; unfold clockReading; lia)
             [SubmitAnswer "Bear" 0 2000; NextQuestion 2100]
             [SubmitAnswer "Rabbit" 1 5000] eq_refl).
  - apply (Hrun initialState NumberComparison [q1; q2] 1000
             [("Bear", 0, 2000, 2100); ("Rabbit", 1, 5000, 0)]
             ltac:(discriminate) eq_refl
             ltac:(repeat constructor; unfold clockReading; lia)
             (inOrder [("Bear", 0, 2000, 2100); ("Rabbit", 1, 5000, 0)])
             [] (eq_sym (app_nil_r _))).
Defined.

(** ** The dashboard's aggregates *)

Lemma sumQ_from {A : Type} (f : A -> Q) (xs : list A) (acc : Q) :
  (fold_left (fun sum a => sum + f a) xs acc == acc + totalSpecQ (map f xs))%Q.
Proof.
  revert acc. induction xs as [|x xs IH]; intros acc; simpl.
  - ring.
  - rewrite IH. ring.
Qed.

Lemma sumQ_totalSpecQ {A : Type} (f : A -> Q) (xs : list A) :
  (sumQ f xs == totalSpecQ (map f xs))%Q.
Proof. unfold sumQ. rewrite sumQ_from. ring. Qed.

Lemma perform_countsNonneg (a : Action) (s : TestStore) :
  Forall countsNonneg (testResults s) ->
  Forall countsNonneg (testResults (perform a s)).
Proof.
  intros Hs. destruct a as [id|age|ty qs now|ans c now|now| |r| ]; simpl;
    try exact Hs; try constructor.
  - destruct (submitAnswer_frame ans c now s) as (_ & _ & _ & H & _).
    rewrite H. exact Hs.
  - destruct (nextQuestion_frame now s) as (_ & _ & _ & H).
    rewrite H. exact Hs.
  - unfold completeTest. destruct (currentTestType s); [|exact Hs]. simpl.
    apply Forall_app. split; [exact Hs|]. constructor; [|constructor].
    split; simpl; [apply len_nonneg|unfold correctCount; apply len_nonneg].
Qed.

Lemma reachable_countsNonneg (s : TestStore) :
  reachable s -> Forall countsNonneg (testResults s).
Proof.
  induction 1 as [|a s Hreach IH].
  - constructor.
  - apply perform_countsNonneg. exact IH.
Qed.

Lemma totalSpec_nonneg (xs : list Z) :
  Forall (fun x => 0 <= x) xs -> 0 <= totalSpec xs.
Proof.
  induction 1 as [|x xs Hx Hxs IH]; simpl; lia.
Qed.

(** C8. The dashboard's overall accuracy of a list of [TestResult]s is
    (sum of [correctAnswers]) / (sum of [totalQuestions]) * 100, and 0 when
    the questions sum to 0; the results the store accumulates never sum to
    less.  Three results with (total, correct) = (5,4), (5,3), (5,4), the
    demo fixture among them, give 11/15*100 = 220/3 = 73.33...%. *)
Theorem overallAccuracy_is_ratio :
  (forall rs : list TestResult,
     0 < totalSpec (map totalQuestions rs) ->
     Dashboard.overallAccuracy rs =
     (inject_Z (totalSpec (map correctAnswers rs))
        / inject_Z (totalSpec (map totalQuestions rs)) * (100#1))%Q) /\
  (forall rs : list TestResult,
     totalSpec (map totalQuestions rs) = 0 ->
     Dashboard.overallAccuracy rs = 0%Q) /\
  (forall s : TestStore,
     reachable s -> 0 <= totalSpec (map totalQuestions (testResults s))) /\
  (forall r1 r2 r3 : TestResult,
     (totalQuestions r1, correctAnswers r1) = (5, 4) ->
     (totalQuestions r2, correctAnswers r2) = (5, 3) ->
     (totalQuestions r3, correctAnswers r3) = (5, 4) ->
     (Dashboard.overallAccuracy [r1; r2; r3] == (11#15) * (100#1))%Q /\
     (Dashboard.overallAccuracy [r1; r2; r3] == 220#3)%Q) /\
  (Dashboard.overallAccuracy Dashboard.demoResults == 220#3)%Q.
Proof.
  split; [|split; [|split; [|split]]].
  - intros rs Hpos. unfold Dashboard.overallAccuracy,
      Dashboard.totalQuestions, Dashboard.totalCorrect.
    rewrite !sumZ_totalSpec.
    destruct (Z.ltb_spec 0 (totalSpec (map totalQuestions rs)));
      [reflexivity|lia].
  - intros rs Hzero. unfold Dashboard.overallAccuracy,
      Dashboard.totalQuestions. rewrite sumZ_totalSpec, Hzero. reflexivity.
  - intros s Hreach. apply totalSpec_nonneg. apply Forall_map.
    eapply Forall_impl; [|exact (reachable_countsNonneg s Hreach)].
    intros r [H _]. exact H.
  - intros r1 r2 r3 H1 H2 H3.
    injection H1 as Ht1 Hc1. injection H2 as Ht2 Hc2.
    injection H3 as Ht3 Hc3.
    unfold Dashboard.overallAccuracy, Dashboard.totalQuestions,
      Dashboard.totalCorrect, sumZ. simpl.
    rewrite Ht1, Ht2, Ht3, Hc1, Hc2, Hc3. split; reflexivity.
  - reflexivity.
Qed.

Lemma overallAccuracy_is_ratio_witness :
  Dashboard.overallAccuracy Dashboard.demoResults =
  (inject_Z (totalSpec (map correctAnswers Dashboard.demoResults))
     / inject_Z (totalSpec (map totalQuestions Dashboard.demoResults))
     * (100#1))%Q /\
  Dashboard.overallAccuracy [] = 0%Q /\
  (Dashboard.overallAccuracy
     [ mkTestResult NumberComparison 5 4 (3000#1) [];
       mkTestResult MentalArithmetic 5 3 (3000#1) [];
       mkTestResult MemoryRecall 5 4 (3000#1) [] ] == 220#3)%Q.
Proof.
  destruct overallAccuracy_is_ratio as (Hpos & Hzero & _ & Hthree & _).
  split; [|split].
  - apply Hpos. reflexivity.
  - apply Hzero. reflexivity.
  - apply (Hthree (mkTestResult NumberComparison 5 4 (3000#1) [])
             (mkTestResult MentalArithmetic 5 3 (3000#1) [])
             (mkTestResult MemoryRecall 5 4 (3000#1) [])
             eq_refl eq_refl eq_refl).
Defined.

(** C9. For a non-empty list of [TestResult]s the overall average response
    time is the sum of the results' [avgResponseTime] divided by the number
    of results (the page shows the same figure in seconds): a mean of means,
    with no weight for the number of answers behind each result.  For the two
    modules above it is 2000, the mean of 1000 and 3000, while the mean over
    the four answers is 2500. *)
Theorem avgResponseTime_is_mean_of_means :
  (forall rs : list TestResult,
     rs <> [] ->
     (Dashboard.avgResponseTime rs ==
      totalSpecQ (map avgResponseTime rs) / inject_Z (len rs))%Q /\
     (Dashboard.avgTime rs ==
      totalSpecQ (map avgResponseTime rs) / inject_Z (len rs) / (1000#1))%Q) /\
  (let rs := testResults (runModules unequalModules initialState) in
   map (fun r => len (resAnswers r)) rs = [1; 3] /\
   (Qeq_bool (Dashboard.avgResponseTime rs) (2000#1) = true) /\
   (Qeq_bool (pooledMeanSpec rs) (2500#1) = true) /\
   ~ (Dashboard.avgResponseTime rs == pooledMeanSpec rs)%Q).
Proof.
  split.
  - intros rs Hne. split.
    + unfold Dashboard.avgResponseTime. rewrite sumQ_totalSpecQ. reflexivity.
    + unfold Dashboard.avgTime.
      destruct (Z.ltb_spec 0 (len rs)) as [_|Hle].
      * rewrite sumQ_totalSpecQ. reflexivity.
      * exfalso. apply Hne. apply len_nil_iff.
        pose proof (len_nonneg rs). lia.
  - split; [reflexivity|]. split; [vm_compute; reflexivity|].
    split; [vm_compute; reflexivity|].
    intros H. apply Qeq_bool_iff in H. vm_compute in H. discriminate.
Qed.

Lemma avgResponseTime_is_mean_of_means_witness :
  (Dashboard.avgResponseTime Dashboard.demoResults ==
   totalSpecQ (map avgResponseTime Dashboard.demoResults)
     / inject_Z (len Dashboard.demoResults))%Q.
Proof.
  destruct avgResponseTime_is_mean_of_means as [Hmean _].
  apply (Hmean Dashboard.demoResults). discriminate.
Defined.

(** ** Further properties of the store *)

Lemma submitAnswer_cases (a : string) (c now : Z) (s : TestStore) :
  submitAnswer a c now s = s \/
  exists q started,
    getCurrentQuestion s = Some q /\ questionStartTime s = Some started /\
    started <> 0 /\
    submitAnswer a c now s =
    mkTestStore (sessionId s) (ageGroup s) (currentTestType s) (questions s)
      (currentQuestionIndex s)
      (answers s ++
         [mkAnswer (questionId q) a (now - started) c
            (strictEq a (correctAnswer q))])
      (testResults s) (riskAssessment s) (questionStartTime s).
Proof.
  destruct (getCurrentQuestion s) as [q|] eqn:Hq.
  - destruct (questionStartTime s) as [started|] eqn:Ht.
    + destruct (Z.eq_dec started 0) as [E|Hnz].
      * left. apply submitAnswer_guarded. right. rewrite Ht, E. reflexivity.
      * right. exists q, started.
        pose proof (submitAnswer_active a c now started q s Hq Ht Hnz) as E.
        rewrite Ht in E. repeat split; assumption.
    + left. apply submitAnswer_guarded. right. rewrite Ht. reflexivity.
  - left. apply submitAnswer_guarded. left. exact Hq.
Qed.

Lemma nextQuestion_cases (now : Z) (s : TestStore) :
  nextQuestion now s = s \/
  (currentQuestionIndex s < len (questions s) - 1 /\
   nextQuestion now s =
   mkTestStore (sessionId s) (ageGroup s) (currentTestType s) (questions s)
     (currentQuestionIndex s + 1) (answers s) (testResults s)
     (riskAssessment s) (Some now)).
Proof.
  unfold nextQuestion.
  destruct (Z.ltb_spec (currentQuestionIndex s) (len (questions s) - 1));
    [right; split; [assumption|reflexivity]|left; reflexivity].
Qed.

Lemma perform_noTestBaseline (a : Action) (s : TestStore) :
  noTestBaseline s -> noTestBaseline (perform a s).
Proof.
  intros [Hnone Hsome].
  destruct a as [id|age|ty qs now|ans c now|now| |r| ]; simpl.
  - split; simpl; [intros _; repeat split|intros H; contradiction].
  - split; assumption.
  - split; simpl; [discriminate|intros _; discriminate].
  - destruct (submitAnswer_cases ans c now s) as [E|(q & st & Hq & Ht & _ & E)];
      rewrite E; [split; assumption|].
    split; simpl.
    + intros Hty. destruct (Hnone Hty) as (Hqs & Hi & _).
      unfold getCurrentQuestion in Hq. rewrite Hqs, Hi in Hq. discriminate.
    + exact Hsome.
  - destruct (nextQuestion_cases now s) as [E|[Hlt E]];
      rewrite E; [split; assumption|].
    split; simpl.
    + intros Hty. destruct (Hnone Hty) as (Hqs & Hi & _).
      rewrite Hqs, Hi in Hlt. unfold len in Hlt. simpl in Hlt. lia.
    + intros _. discriminate.
  - unfold completeTest. destruct (currentTestType s) eqn:Hty.
    + split; simpl; [intros _; repeat split|intros H; contradiction].
    + split.
      * intros _. apply Hnone. reflexivity.
      * intros H. rewrite Hty in H. exfalso. apply H. reflexivity.
  - split; assumption.
  - split; simpl; [intros _; repeat split|intros H; contradiction].
Qed.

Lemma reachable_noTestBaseline (s : TestStore) :
  reachable s -> noTestBaseline s.
Proof.
  induction 1 as [|a s Hreach IH].
  - split; simpl; [intros _; repeat split|intros H; contradiction].
  - apply perform_noTestBaseline. exact IH.
Qed.

Lemma no_test_type_no_test_data_aux (s : TestStore) :
  reachable s -> currentTestType s = None ->
  (forall a c now, submitAnswer a c now s = s) /\
  (forall now, nextQuestion now s = s).
Proof.
  intros Hreach Hty.
  destruct (reachable_noTestBaseline s Hreach) as [Hnone _].
  destruct (Hnone Hty) as (Hqs & Hi & _). split.
  - intros a c now. apply submitAnswer_guarded. left.
    unfold getCurrentQuestion. rewrite Hqs, Hi. reflexivity.
  - intros now. unfold nextQuestion. rewrite Hqs, Hi. reflexivity.
Qed.

(** X1. In every state the store can reach, no test type means no test
    data: with [currentTestType] null, [questions] and [answers] are empty,
    the cursor is 0 and no start time is recorded, so there is no current
    question, the progress is 0, the test does not count as complete and
    [submitAnswer] and [nextQuestion] change nothing; with a test type set,
    a start time is recorded. *)
Theorem no_test_type_no_test_data (s : TestStore) :
  reachable s ->
  (currentTestType s = None ->
   questions s = [] /\ currentQuestionIndex s = 0 /\ answers s = [] /\
   questionStartTime s = None /\
   getCurrentQuestion s = None /\ getProgress s = 0%Q /\
   isTestComplete s = false /\
   (forall a c now, submitAnswer a c now s = s) /\
   (forall now, nextQuestion now s = s)) /\
  (currentTestType s <> None -> exists t, questionStartTime s = Some t).
Proof.
  intros Hreach. destruct (reachable_noTestBaseline s Hreach) as [Hnone Hsome].
  split.
  - intros Hty. destruct (Hnone Hty) as (Hqs & Hi & Ha & Ht).
    repeat split; try assumption.
    + unfold getCurrentQuestion. rewrite Hqs, Hi. reflexivity.
    + apply getProgress_empty. exact Hqs.
    + unfold isTestComplete. rewrite Hqs. reflexivity.
    + intros a c now. apply submitAnswer_guarded. left.
      unfold getCurrentQuestion. rewrite Hqs, Hi. reflexivity.
    + intros now. unfold nextQuestion. rewrite Hqs, Hi. reflexivity.
  - intros Hty. specialize (Hsome Hty).
    destruct (questionStartTime s) as [t|]; [exists t; reflexivity|].
    contradiction.
Qed.

Lemma no_test_type_no_test_data_witness :
  let s := perform CompleteTest
             (perform (SubmitAnswer "Bear" 0 1500)
                (perform (StartTest NumberComparison [q1] 1000) initialState)) in
  questions s = [] /\ currentQuestionIndex s = 0 /\ answers s = [] /\
  questionStartTime s = None /\
  getCurrentQuestion s = None /\ getProgress s = 0%Q /\
  isTestComplete s = false /\
  (forall a c now, submitAnswer a c now s = s) /\
  (forall now, nextQuestion now s = s).
Proof.
  apply (no_test_type_no_test_data
           (perform CompleteTest
              (perform (SubmitAnswer "Bear" 0 1500)
                 (perform (StartTest NumberComparison [q1] 1000)
                    initialState)))).
  - apply reachable_step. apply reachable_step. apply reachable_step.
    apply reachable_init.
  - reflexivity.
Defined.

Lemma perform_answerMatches (a : Action) (s : TestStore) :
  Forall (answerMatches (questions s)) (answers s) ->
  Forall (answerMatches (questions (perform a s))) (answers (perform a s)).
Proof.
  intros Hs.
  destruct a as [id|age|ty qs now|ans c now|now| |r| ]; simpl;
    try exact Hs; try constructor.
  - destruct (submitAnswer_cases ans c now s) as [E|(q & st & Hq & Ht & _ & E)];
      rewrite E; [exact Hs|]. simpl.
    apply Forall_app. split; [exact Hs|]. constructor; [|constructor].
    exists q. simpl. split; [|split; reflexivity].
    unfold getCurrentQuestion, index in Hq.
    destruct (currentQuestionIndex s <? 0); [discriminate|].
    apply nth_error_In in Hq. exact Hq.
  - destruct (nextQuestion_cases now s) as [E|[_ E]]; rewrite E; exact Hs.
  - unfold completeTest. destruct (currentTestType s); [constructor|exact Hs].
Qed.

(** X2. In every state the store can reach, each recorded answer belongs to
    a question of the running test: [questions] holds a question with the
    answer's [questionId] whose [correctAnswer] decides the answer's
    [correct] flag. *)
Theorem answers_match_questions (s : TestStore) :
  reachable s ->
  forall a, In a (answers s) ->
    exists q, In q (questions s) /\ ansQuestionId a = questionId q /\
              (correct a = true <-> selectedAnswer a = correctAnswer q).
Proof.
  intros Hreach.
  assert (Hall : Forall (answerMatches (questions s)) (answers s)).
  { induction Hreach as [|act s Hreach IH].
    - constructor.
    - apply perform_answerMatches. exact IH. }
  intros a Ha. rewrite Forall_forall in Hall.
  destruct (Hall a Ha) as (q & Hin & Hid & Hc).
  exists q. split; [exact Hin|]. split; [exact Hid|].
  rewrite Hc. apply strictEq_spec.
Qed.

Lemma answers_match_questions_witness :
  let s := perform (SubmitAnswer "Rabbit" 0 1500)
             (perform (StartTest NumberComparison [q1; q2] 1000) initialState) in
  exists q, In q (questions s) /\
            ansQuestionId (mkAnswer "q1" "Rabbit" 500 0 false) = questionId q /\
            (correct (mkAnswer "q1" "Rabbit" 500 0 false) = true <->
             selectedAnswer (mkAnswer "q1" "Rabbit" 500 0 false)
             = correctAnswer q).
Proof.
  apply (answers_match_questions
           (perform (SubmitAnswer "Rabbit" 0 1500)
              (perform (StartTest NumberComparison [q1; q2] 1000)
                 initialState))).
  - apply reachable_step. apply reachable_step. apply reachable_init.
  - left. reflexivity.
Defined.

Lemma correctCount_bounds (ans : list Answer) :
  0 <= correctCount ans <= len ans.
Proof.
  unfold correctCount, len. pose proof (filter_length_le correct ans). lia.
Qed.

Lemma perform_resultConsistent (a : Action) (s : TestStore) :
  Forall resultConsistent (testResults s) ->
  Forall resultConsistent (testResults (perform a s)).
Proof.
  intros Hs. destruct a as [id|age|ty qs now|ans c now|now| |r| ]; simpl;
    try exact Hs; try constructor.
  - destruct (submitAnswer_frame ans c now s) as (_ & _ & _ & H & _).
    rewrite H. exact Hs.
  - destruct (nextQuestion_frame now s) as (_ & _ & _ & H).
    rewrite H. exact Hs.
  - unfold completeTest. destruct (currentTestType s); [|exact Hs]. simpl.
    apply Forall_app. split; [exact Hs|]. constructor; [|constructor].
    unfold resultConsistent. simpl.
    split; [apply len_nonneg|].
    split; [apply correctCount_countCorrectSpec|].
    split; [apply correctCount_bounds|reflexivity].
Qed.

Lemma reachable_resultConsistent (s : TestStore) :
  reachable s -> Forall resultConsistent (testResults s).
Proof.
  induction 1 as [|a s Hreach IH].
  - constructor.
  - apply perform_resultConsistent. exact IH.
Qed.

(** X3. Every [TestResult] the store holds agrees with the answers it
    carries: [correctAnswers] is the number of its answers with
    [correct = true] and lies between 0 and the number of answers,
    [totalQuestions] is not negative, and [avgResponseTime] is the mean of
    the answers' [responseTimeMs] (0 without answers). *)
Theorem stored_results_are_consistent (s : TestStore) :
  reachable s ->
  forall r, In r (testResults s) ->
    0 <= totalQuestions r /\
    correctAnswers r = countCorrectSpec (resAnswers r) /\
    0 <= correctAnswers r <= len (resAnswers r) /\
    (resAnswers r = [] -> avgResponseTime r = 0%Q) /\
    (resAnswers r <> [] ->
     avgResponseTime r =
     (inject_Z (totalSpec (map responseTimeMs (resAnswers r)))
        / inject_Z (len (resAnswers r)))%Q).
Proof.
  intros Hreach r Hr.
  pose proof (reachable_resultConsistent s Hreach) as Hall.
  rewrite Forall_forall in Hall.
  destruct (Hall r Hr) as (Htot & Hcount & Hbounds & Havg).
  split; [exact Htot|]. split; [exact Hcount|]. split; [exact Hbounds|].
  rewrite Havg. unfold avgTime. split.
  - intros E. rewrite E. reflexivity.
  - intros Hne. destruct (Z.ltb_spec 0 (len (resAnswers r))) as [_|Hle].
    + rewrite sumZ_totalSpec. reflexivity.
    + exfalso. apply Hne. apply len_nil_iff.
      pose proof (len_nonneg (resAnswers r)). lia.
Qed.

Lemma stored_results_are_consistent_witness :
  let r := mkTestResult NumberComparison 1 1 (500#1)
             [mkAnswer "q1" "Bear" 500 0 true] in
  0 <= totalQuestions r /\
  correctAnswers r = countCorrectSpec (resAnswers r) /\
  0 <= correctAnswers r <= len (resAnswers r) /\
  (resAnswers r = [] -> avgResponseTime r = 0%Q) /\
  (resAnswers r <> [] ->
   avgResponseTime r =
   (inject_Z (totalSpec (map responseTimeMs (resAnswers r)))
      / inject_Z (len (resAnswers r)))%Q).
Proof.
  apply (stored_results_are_consistent
           (perform CompleteTest
              (perform (SubmitAnswer "Bear" 0 1500)
                 (perform (StartTest NumberComparison [q1] 1000)
                    initialState)))).
  - apply reachable_step. apply reachable_step. apply reachable_step.
    apply reachable_init.
  - left. reflexivity.
Defined.

Lemma perform_keeps_results (a : Action) (s : TestStore) :
  keepsSession a = true ->
  sessionId (perform a s) = sessionId s /\
  exists rs,
    testResults (perform a s) = testResults s ++ rs /\
    len rs = (if isComplete a then len rs else 0) /\
    len rs <= 1.
Proof.
  intros Hkeep.
  destruct a as [id|age|ty qs now|ans c now|now| |r| ]; simpl in *;
    try discriminate;
    try (split; [reflexivity|]; exists []; rewrite app_nil_r;
         repeat split; unfold len; simpl; lia).
  - destruct (submitAnswer_cases ans c now s) as [E|(q & st & _ & _ & _ & E)];
      rewrite E; simpl; split; try reflexivity;
      exists []; rewrite app_nil_r; repeat split; unfold len; simpl; lia.
  - destruct (nextQuestion_cases now s) as [E|[_ E]];
      rewrite E; simpl; split; try reflexivity;
      exists []; rewrite app_nil_r; repeat split; unfold len; simpl; lia.
  - unfold completeTest. destruct (currentTestType s); simpl.
    + split; [reflexivity|]. eexists. split; [reflexivity|].
      unfold len. simpl. lia.
    + split; [reflexivity|]. exists []. rewrite app_nil_r.
      repeat split; unfold len; simpl; lia.
Qed.

(** X4. As long as neither [setSessionId] nor [resetSession] is called, the
    session identifier stays and [testResults] only grows at its end: the
    results held before remain, in place and unchanged, and at most one
    result is added per [completeTest] call. *)
Theorem results_only_grow (acts : list Action) (s : TestStore) :
  forallb keepsSession acts = true ->
  sessionId (run acts s) = sessionId s /\
  exists rs,
    testResults (run acts s) = testResults s ++ rs /\
    len rs <= len (filter isComplete acts).
Proof.
  unfold run. revert s. induction acts as [|a acts IH]; intros s Hkeep.
  - simpl. split; [reflexivity|]. exists []. rewrite app_nil_r.
    split; [reflexivity|]. unfold len. simpl. lia.
  - simpl in Hkeep. apply andb_true_iff in Hkeep. destruct Hkeep as [Ha Hacts].
    destruct (perform_keeps_results a s Ha) as (Hid & r1 & Hr1 & Hlen1 & Hle1).
    destruct (IH (perform a s) Hacts) as (Hid' & r2 & Hr2 & Hlen2).
    cbn [fold_left]. split; [rewrite Hid', Hid; reflexivity|].
    exists (r1 ++ r2). split.
    + rewrite Hr2, Hr1, app_assoc. reflexivity.
    + rewrite len_app. cbn [filter].
      destruct (isComplete a); [rewrite len_cons; lia|lia].
Qed.

Lemma results_only_grow_witness :
  let acts := [StartTest MemoryRecall [q1] 5000; SubmitAnswer "Bear" 0 6000;
               CompleteTest; CompleteTest] in
  let s := run [StartTest NumberComparison [q1] 1000; CompleteTest]
             initialState in
  sessionId (run acts s) = sessionId s /\
  exists rs,
    testResults (run acts s) = testResults s ++ rs /\
    len rs <= len (filter isComplete acts).
Proof.
  apply results_only_grow. reflexivity.
Defined.

Lemma startTest_forgets_body (ty : TestType) (qs : list Question) (t : Z)
    (b : BodyAction) (s : TestStore) :
  startTest ty qs t (perform (bodyAction b) s) = startTest ty qs t s.
Proof.
  destruct b as [a c now|now]; simpl.
  - destruct (submitAnswer_cases a c now s) as [E|(q & st & _ & _ & _ & E)];
      rewrite E; reflexivity.
  - destruct (nextQuestion_cases now s) as [E|[_ E]]; rewrite E; reflexivity.
Qed.

(** X5. [startTest] during a running test abandons it without a trace:
    whatever was submitted and advanced since the earlier [startTest], the
    store after the new [startTest] is the one it would be had the earlier
    test never been started; in particular no [TestResult] is recorded for
    the abandoned test. *)
Theorem startTest_abandons_running_test (ty1 ty2 : TestType)
    (qs1 qs2 : list Question) (t1 t2 : Z) (body : list BodyAction)
    (s : TestStore) :
  startTest ty2 qs2 t2 (run (map bodyAction body) (startTest ty1 qs1 t1 s)) =
  startTest ty2 qs2 t2 s /\
  testResults
    (startTest ty2 qs2 t2 (run (map bodyAction body) (startTest ty1 qs1 t1 s)))
  = testResults s.
Proof.
  assert (Hbody : forall s0,
            startTest ty2 qs2 t2 (run (map bodyAction body) s0) =
            startTest ty2 qs2 t2 s0).
  { unfold run. induction body as [|b body IH]; intros s0; simpl.
    - reflexivity.
    - rewrite IH. apply startTest_forgets_body. }
  rewrite Hbody. split; reflexivity.
Qed.

(** X6. [completeTest] closes the test for good: a second [completeTest]
    changes nothing, and in every state the store can reach every
    [submitAnswer] and [nextQuestion] after it is ignored until the next
    [startTest]. *)
Theorem completeTest_closes_test (s : TestStore) :
  completeTest (completeTest s) = completeTest s /\
  (reachable s ->
   forall body : list BodyAction,
     run (map bodyAction body) (completeTest s) = completeTest s).
Proof.
  split.
  - assert (Hty : currentTestType (completeTest s) = None).
    { unfold completeTest. destruct (currentTestType s) eqn:E;
        [reflexivity|exact E]. }
    unfold completeTest at 1. rewrite Hty. reflexivity.
  - intros Hreach body.
    assert (Hdone : reachable (completeTest s))
      by (apply (reachable_step CompleteTest); exact Hreach).
    assert (Hty : currentTestType (completeTest s) = None).
    { unfold completeTest. destruct (currentTestType s) eqn:E;
        [reflexivity|exact E]. }
    destruct (no_test_type_no_test_data_aux (completeTest s) Hdone Hty)
      as [Hsubmit Hnext].
    unfold run. induction body as [|b body IH]; simpl; [reflexivity|].
    destruct b as [a c now|now]; simpl.
    + rewrite Hsubmit. exact IH.
    + rewrite Hnext. exact IH.
Qed.

Lemma completeTest_closes_test_witness :
  let s := perform (StartTest NumberComparison [q1; q2] 1000) initialState in
  run (map bodyAction [BSubmit "Bear" 0 2000; BNext 3000]) (completeTest s) =
  completeTest s.
Proof.
  destruct (completeTest_closes_test
              (perform (StartTest NumberComparison [q1; q2] 1000) initialState))
    as [_ H].
  apply H. apply reachable_step. apply reachable_init.
Defined.

Lemma nextQuestion_run_saturates (clock : list Z) (s : TestStore) :
  questions (run (map NextQuestion clock) s) = questions s /\
  currentQuestionIndex (run (map NextQuestion clock) s) =
  Z.max (currentQuestionIndex s)
        (Z.min (currentQuestionIndex s + len clock) (len (questions s) - 1)).
Proof.
  unfold run. revert s. induction clock as [|now clock IH]; intros s.
  - simpl. unfold len at 1. simpl. split; [reflexivity|lia].
  - cbn [map fold_left perform]. rewrite len_cons.
    pose proof (len_nonneg clock) as Hclock.
    destruct (IH (nextQuestion now s)) as [Hq Hi]. rewrite Hq, Hi.
    destruct (nextQuestion_cases now s) as [E|[Hlt E]]; rewrite E; simpl.
    + unfold nextQuestion in E.
      destruct (Z.ltb_spec (currentQuestionIndex s) (len (questions s) - 1))
        as [Hlt|Hge].
      * apply (f_equal currentQuestionIndex) in E. simpl in E. lia.
      * split; [reflexivity|lia].
    + split; [reflexivity|lia].
Qed.

(** X7. However often [nextQuestion] is called after [startTest], the
    cursor stops at the last question: after n calls on K questions it is
    min(n, K - 1), or 0 when K = 0, and [getCurrentQuestion] returns the
    question at that position (none when K = 0). *)
Theorem nextQuestion_stops_at_last (s : TestStore) (ty : TestType)
    (qs : list Question) (t0 : Z) (clock : list Z) :
  currentQuestionIndex (run (map NextQuestion clock) (startTest ty qs t0 s)) =
  Z.max 0 (Z.min (len clock) (len qs - 1)) /\
  getCurrentQuestion (run (map NextQuestion clock) (startTest ty qs t0 s)) =
  nth_error qs (Z.to_nat (Z.min (len clock) (len qs - 1))).
Proof.
  destruct (nextQuestion_run_saturates clock (startTest ty qs t0 s))
    as [Hq Hi].
  simpl in Hq, Hi. split; [exact Hi|].
  unfold getCurrentQuestion. rewrite Hq, Hi. unfold index.
  pose proof (len_nonneg clock) as Hclock. pose proof (len_nonneg qs) as Hqs.
  destruct (Z.ltb_spec (Z.max 0 (Z.min (len clock) (len qs - 1))) 0); [lia|].
  f_equal. lia.
Qed.

Lemma index_app_middle {A : Type} (pre post : list A) (x : A) :
  index (pre ++ x :: post) (len pre) = Some x.
Proof.
  unfold index, len.
  destruct (Z.ltb_spec (Z.of_nat (List.length pre)) 0); [lia|].
  rewrite Nat2Z.id, nth_error_app2 by lia.
  rewrite Nat.sub_diag. reflexivity.
Qed.

Lemma inOrder_records (steps : list (string * Z * Z * Z)) :
  forall (qs pre : list Question) (s : TestStore) (started : Z),
    questions s = pre ++ qs -> currentQuestionIndex s = len pre ->
    questionStartTime s = Some started -> started <> 0 ->
    Forall (fun t => t <> 0) (advanceStamps steps) ->
    len steps = len qs ->
    answers (run (inOrder steps) s) =
      answers s ++ answersInOrder started qs steps /\
    questions (run (inOrder steps) s) = questions s /\
    currentTestType (run (inOrder steps) s) = currentTestType s /\
    testResults (run (inOrder steps) s) = testResults s.
Proof.
  induction steps as [|[[[a c] ts] tn] rest IH];
    intros qs pre s started Hqs Hi Hst Hnz Hall Hlen.
  - destruct qs as [|q qs]; [|rewrite len_cons in Hlen;
      pose proof (len_nonneg qs); unfold len in Hlen at 1; simpl in Hlen; lia].
    simpl. rewrite app_nil_r. repeat split.
  - destruct qs as [|q qs];
      [rewrite len_cons in Hlen; pose proof (len_nonneg rest);
       unfold len in Hlen at 2; simpl in Hlen; lia|].
    rewrite !len_cons in Hlen.
    assert (Hq : getCurrentQuestion s = Some q).
    { unfold getCurrentQuestion. rewrite Hqs, Hi. apply index_app_middle. }
    pose proof (submitAnswer_active a c ts started q s Hq Hst Hnz) as Hsub.
    destruct rest as [|y rest].
    + destruct qs as [|q' qs];
        [|rewrite len_cons in Hlen; pose proof (len_nonneg qs);
          unfold len in Hlen at 1; simpl in Hlen; lia].
      rewrite inOrder_last. unfold run. simpl fold_left. rewrite Hsub.
      simpl. repeat split.
    + rewrite inOrder_more.
      change (run (SubmitAnswer a c ts :: NextQuestion tn :: inOrder (y :: rest)) s)
        with (run (inOrder (y :: rest)) (nextQuestion tn (submitAnswer a c ts s))).
      rewrite Hsub.
      set (s1 := mkTestStore (sessionId s) (ageGroup s) (currentTestType s)
                   (questions s) (currentQuestionIndex s)
                   (answers s ++
                      [mkAnswer (questionId q) a (ts - started) c
                         (strictEq a (correctAnswer q))])
                   (testResults s) (riskAssessment s) (questionStartTime s)).
      assert (Hlt : currentQuestionIndex s1 < len (questions s1) - 1).
      { subst s1. simpl. rewrite Hqs, Hi, len_app, len_cons.
        rewrite len_cons in Hlen. pose proof (len_nonneg rest). lia. }
      destruct (nextQuestion_cases tn s1) as [E|[_ E]].
      { exfalso. unfold nextQuestion in E.
        destruct (Z.ltb_spec (currentQuestionIndex s1) (len (questions s1) - 1));
          [|lia].
        apply (f_equal currentQuestionIndex) in E. simpl in E. lia. }
      rewrite E. subst s1. cbn [sessionId ageGroup currentTestType questions
        currentQuestionIndex answers testResults riskAssessment
        questionStartTime].
      unfold advanceStamps in Hall. simpl in Hall.
      apply Forall_cons_iff in Hall. destruct Hall as [Htn Hall].
      destruct (IH qs (pre ++ [q])
                  (mkTestStore (sessionId s) (ageGroup s) (currentTestType s)
                     (questions s) (currentQuestionIndex s + 1)
                     (answers s ++
                        [mkAnswer (questionId q) a (ts - started) c
                           (strictEq a (correctAnswer q))])
                     (testResults s) (riskAssessment s) (Some tn)) tn)
        as (Hans & Hquest & Hty & Hres); simpl; try assumption.
      * rewrite Hqs, <- app_assoc. reflexivity.
      * rewrite Hi, len_app. unfold len at 3. simpl. lia.
      * reflexivity.
      * lia.
      * simpl in Hans, Hquest, Hty, Hres.
        rewrite Hans, Hquest, Hty, Hres, <- app_assoc. simpl.
        repeat split.
Qed.

Lemma answersInOrder_ids (steps : list (string * Z * Z * Z)) :
  forall (started : Z) (qs : list Question),
    len steps = len qs ->
    map ansQuestionId (answersInOrder started qs steps) = map questionId qs /\
    map selectedAnswer (answersInOrder started qs steps) =
      map (fun st => fst (fst (fst st))) steps.
Proof.
  induction steps as [|[[[a c] ts] tn] rest IH]; intros started qs Hlen.
  - destruct qs as [|q qs]; [split; reflexivity|].
    rewrite len_cons in Hlen. pose proof (len_nonneg qs).
    unfold len in Hlen at 1. simpl in Hlen. lia.
  - destruct qs as [|q qs].
    + rewrite len_cons in Hlen. pose proof (len_nonneg rest).
      unfold len in Hlen at 2. simpl in Hlen. lia.
    + rewrite !len_cons in Hlen. simpl.
      destruct (IH tn qs ltac:(lia)) as [H1 H2]. rewrite H1, H2.
      split; reflexivity.
Qed.

(** X8. A whole test answered in order.  After [startTest] with K questions
    at a non-zero clock reading, one [submitAnswer] per question with a
    [nextQuestion] (at a non-zero reading) between two questions, and
    [completeTest], exactly one [TestResult] is appended.  It has the test's
    type and [totalQuestions] = K, and it holds K answers, the i-th for the
    i-th question with the i-th selected answer and with the time from that
    question's stamp to its submission; [correctAnswers] counts the answers
    equal to their question's [correctAnswer].  The store is back in the
    no-test state. *)
Theorem answered_in_order_result (s : TestStore) (ty : TestType)
    (qs : list Question) (t0 : Z) (steps : list (string * Z * Z * Z)) :
  len steps = len qs ->
  t0 <> 0 -> Forall (fun t => t <> 0) (advanceStamps steps) ->
  let s' := completeTest (run (inOrder steps) (startTest ty qs t0 s)) in
  let recorded := answersInOrder t0 qs steps in
  testResults s' =
    testResults s ++
      [mkTestResult ty (len qs) (countCorrectSpec recorded)
         (avgTime recorded) recorded] /\
  len recorded = len qs /\
  map ansQuestionId recorded = map questionId qs /\
  map selectedAnswer recorded = map (fun st => fst (fst (fst st))) steps /\
  currentTestType s' = None /\ questions s' = [] /\ answers s' = [] /\
  currentQuestionIndex s' = 0 /\ questionStartTime s' = None.
Proof.
  intros Hlen Ht0 Hall. cbv zeta.
  destruct (inOrder_records steps qs [] (startTest ty qs t0 s) t0)
    as (Hans & Hquest & Hty & Hres); try assumption; try reflexivity.
  simpl in Hans, Hquest, Hty, Hres.
  destruct (answersInOrder_ids steps t0 qs Hlen) as [Hids Hsel].
  unfold completeTest. rewrite Hty. simpl.
  rewrite Hres, Hans, Hquest, correctCount_countCorrectSpec.
  split; [reflexivity|]. split.
  - unfold len. rewrite <- (length_map ansQuestionId), Hids, length_map.
    reflexivity.
  - repeat split; assumption.
Qed.

Lemma answered_in_order_result_witness :
  let steps := [("Bear", 0, 2000, 2100); ("Bear", 1, 5000, 0)] in
  let s' := completeTest
              (run (inOrder steps)
                 (startTest NumberComparison [q1; q2] 1000 initialState)) in
  let recorded := answersInOrder 1000 [q1; q2] steps in
  testResults s' =
    testResults initialState ++
      [mkTestResult NumberComparison (len [q1; q2]) (countCorrectSpec recorded)
         (avgTime recorded) recorded] /\
  len recorded = len [q1; q2] /\
  map ansQuestionId recorded = map questionId [q1; q2] /\
  map selectedAnswer recorded = map (fun st => fst (fst (fst st))) steps /\
  currentTestType s' = None /\ questions s' = [] /\ answers s' = [] /\
  currentQuestionIndex s' = 0 /\ questionStartTime s' = None.
Proof.
  apply (answered_in_order_result initialState NumberComparison [q1; q2] 1000
           [("Bear", 0, 2000, 2100); ("Bear", 1, 5000, 0)]).
  - reflexivity.
  - discriminate.
  - repeat constructor. discriminate.
Defined.

(** ** Properties of the pages' statistics *)

Lemma ratio_percent_bounds (n k : Z) :
  0 <= n <= k -> 0 < k ->
  (0 <= inject_Z n / inject_Z k * (100#1))%Q /\
  (inject_Z n / inject_Z k * (100#1) <= 100#1)%Q.
Proof.
  intros [Hn Hnk] Hk.
  assert (Hkpos : (0 < inject_Z k)%Q)
    by (change 0%Q with (inject_Z 0); rewrite <- Zlt_Qlt; lia).
  assert (Hnpos : (0 <= inject_Z n)%Q)
    by (change 0%Q with (inject_Z 0); rewrite <- Zle_Qle; lia).
  split.
  - apply Qmult_le_0_compat; [|discriminate].
    apply Qle_shift_div_l; [exact Hkpos|].
    rewrite Qmult_0_l. exact Hnpos.
  - setoid_replace (100#1)%Q with (1 * (100#1))%Q at 2 by ring.
    apply Qmult_le_compat_r; [|discriminate].
    apply Qle_shift_div_r; [exact Hkpos|].
    rewrite Qmult_1_l. rewrite <- Zle_Qle. exact Hnk.
Qed.

Lemma totalSpec_le {A : Type} (f g : A -> Z) (xs : list A) :
  Forall (fun x => 0 <= f x <= g x) xs ->
  0 <= totalSpec (map f xs) <= totalSpec (map g xs).
Proof.
  induction 1 as [|x xs Hx Hxs IH]; simpl; lia.
Qed.

(** X9. When no result counts more correct answers than questions (and no
    count is negative), the overall accuracy of both pages lies in [0, 100]
    and so does the error rate [100 - accuracy] they send to the risk
    service.  The store does not guarantee the condition: two submissions
    for the one question of a test give an accuracy of 200. *)
Theorem accuracy_within_percent_range :
  (forall rs : list TestResult,
     Forall (fun r => 0 <= correctAnswers r <= totalQuestions r) rs ->
     (0 <= Dashboard.overallAccuracy rs)%Q /\
     (Dashboard.overallAccuracy rs <= 100#1)%Q /\
     (0 <= error_rate (ResultPage.features rs))%Q /\
     (error_rate (ResultPage.features rs) <= 100#1)%Q /\
     ResultPage.overallAccuracy rs = Dashboard.overallAccuracy rs) /\
  (let s := run [StartTest NumberComparison [q1] 1000;
                 SubmitAnswer "Bear" 0 2000; SubmitAnswer "Bear" 0 3000;
                 CompleteTest] initialState in
   reachable s /\
   Qeq_bool (Dashboard.overallAccuracy (testResults s)) (200#1) = true).
Proof.
  split.
  - intros rs Hall.
    assert (Hsame : ResultPage.overallAccuracy rs = Dashboard.overallAccuracy rs)
      by reflexivity.
    assert (Hacc : (0 <= Dashboard.overallAccuracy rs)%Q /\
                   (Dashboard.overallAccuracy rs <= 100#1)%Q).
    { unfold Dashboard.overallAccuracy, Dashboard.totalQuestions,
        Dashboard.totalCorrect. rewrite !sumZ_totalSpec.
      pose proof (totalSpec_le correctAnswers totalQuestions rs Hall) as Hle.
      destruct (Z.ltb_spec 0 (totalSpec (map totalQuestions rs))) as [Hpos|_].
      - apply ratio_percent_bounds; assumption.
      - split; discriminate. }
    destruct Hacc as [Hlo Hhi].
    split; [exact Hlo|]. split; [exact Hhi|].
    unfold ResultPage.features. cbn [error_rate]. rewrite Hsame.
    split; [|split; [|reflexivity]].
    + apply (Qplus_le_r _ _ (Dashboard.overallAccuracy rs)).
      ring_simplify. exact Hhi.
    + apply (Qplus_le_r _ _ (Dashboard.overallAccuracy rs)).
      ring_simplify.
      setoid_replace (100#1)%Q with (0 + (100#1))%Q at 1 by ring.
      apply Qplus_le_l. exact Hlo.
  - split.
    + repeat apply reachable_step. apply reachable_init.
    + vm_compute. reflexivity.
Qed.

Lemma accuracy_within_percent_range_witness :
  (0 <= Dashboard.overallAccuracy Dashboard.demoResults)%Q /\
  (Dashboard.overallAccuracy Dashboard.demoResults <= 100#1)%Q.
Proof.
  destruct accuracy_within_percent_range as [Hbounds _].
  destruct (Hbounds Dashboard.demoResults) as (Hlo & Hhi & _).
  - repeat constructor; simpl; lia.
  - split; assumption.
Defined.

Lemma fold_max_ge_init (xs : list Z) (x : Z) : x <= fold_left Z.max xs x.
Proof.
  revert x. induction xs as [|y xs IH]; intros x; simpl; [lia|].
  specialize (IH (Z.max x y)). lia.
Qed.

Lemma fold_max_upper (xs : list Z) (x y : Z) :
  In y (x :: xs) -> y <= fold_left Z.max xs x.
Proof.
  revert x. induction xs as [|z xs IH]; intros x Hin; simpl.
  - destruct Hin as [<-|[]]. lia.
  - destruct Hin as [<-|[<-|Hin]].
    + pose proof (fold_max_ge_init xs (Z.max x z)). lia.
    + pose proof (fold_max_ge_init xs (Z.max x z)). lia.
    + apply IH. right. exact Hin.
Qed.

Lemma fold_max_attained (xs : list Z) (x : Z) :
  In (fold_left Z.max xs x) (x :: xs).
Proof.
  revert x. induction xs as [|z xs IH]; intros x; simpl.
  - left. reflexivity.
  - destruct (IH (Z.max x z)) as [E|Hin].
    + rewrite <- E. destruct (Z.max_spec x z) as [[_ ->]|[_ ->]];
        [right; left|left]; reflexivity.
    + right. right. exact Hin.
Qed.

Lemma orZero_id (x : Z) : orZero x = x.
Proof. unfold orZero. destruct (Z.eqb_spec x 0); congruence. Qed.

Lemma map_orZero {A : Type} (f : A -> Z) (xs : list A) :
  map (fun a => orZero (f a)) xs = map f xs.
Proof. apply map_ext. intros a. apply orZero_id. Qed.

(** X10. The [max_delay] the result page sends is 0 when no answer was
    recorded; otherwise it is the [responseTimeMs] of one of the answers of
    the session's results and no answer took longer. *)
Theorem maxDelay_is_longest_answer (rs : list TestResult) :
  (ResultPage.allAnswers rs = [] -> ResultPage.maxDelay rs = 0%Q) /\
  (ResultPage.allAnswers rs <> [] ->
   exists a, In a (ResultPage.allAnswers rs) /\
             ResultPage.maxDelay rs = inject_Z (responseTimeMs a) /\
             forall b, In b (ResultPage.allAnswers rs) ->
                       responseTimeMs b <= responseTimeMs a).
Proof.
  unfold ResultPage.maxDelay. split.
  - intros E. rewrite E. reflexivity.
  - intros Hne.
    destruct (ResultPage.allAnswers rs) as [|a0 rest] eqn:E; [contradiction|].
    cbn [map maxOr].
    pose proof (fold_max_attained (map responseTimeMs rest) (responseTimeMs a0))
      as Hin.
    change (responseTimeMs a0 :: map responseTimeMs rest)
      with (map responseTimeMs (a0 :: rest)) in Hin.
    apply in_map_iff in Hin. destruct Hin as (a & Ha & Hina).
    exists a. split; [exact Hina|]. split; [rewrite Ha; reflexivity|].
    intros b Hb. rewrite Ha.
    apply fold_max_upper.
    change (responseTimeMs a0 :: map responseTimeMs rest)
      with (map responseTimeMs (a0 :: rest)).
    apply in_map. exact Hb.
Qed.

Lemma maxDelay_is_longest_answer_witness :
  exists a,
    In a (ResultPage.allAnswers
            (testResults (runModules unequalModules initialState))) /\
    ResultPage.maxDelay (testResults (runModules unequalModules initialState))
    = inject_Z (responseTimeMs a).
Proof.
  destruct (maxDelay_is_longest_answer
              (testResults (runModules unequalModules initialState)))
    as [_ H].
  destruct H as (a & Hin & Hmax & _); [discriminate|].
  exists a. split; assumption.
Defined.

Lemma flat_map_nil {A B : Type} (f : A -> list B) (xs : list A) :
  flat_map f xs = [] -> Forall (fun x => f x = []) xs.
Proof.
  induction xs as [|x xs IH]; simpl; intros E; [constructor|].
  apply app_eq_nil in E. destruct E as [E1 E2].
  constructor; [exact E1|apply IH; exact E2].
Qed.

Lemma totalSpecQ_zero {A : Type} (f : A -> Q) (xs : list A) :
  Forall (fun x => f x = 0%Q) xs -> (totalSpecQ (map f xs) == 0)%Q.
Proof.
  induction 1 as [|x xs Hx Hxs IH]; simpl; [reflexivity|].
  rewrite Hx, IH. reflexivity.
Qed.

(** The vectors the two pages build from the results of the store agree. *)
Lemma features_agree_on_store (s : TestStore) (showDemo : bool) :
  reachable s -> testResults s <> [] ->
  featuresEq (DashboardRisk.features (testResults s) showDemo)
             (ResultPage.features (testResults s)).
Proof.
  intros Hreach Hne.
  pose proof (reachable_resultConsistent s Hreach) as Hcons.
  set (rs := testResults s) in *.
  assert (Hlen : 0 < len rs).
  { pose proof (len_nonneg rs). assert (len rs <> 0)
      by (rewrite len_nil_iff; exact Hne). lia. }
  assert (Hres : Dashboard.results rs showDemo = rs).
  { unfold Dashboard.results, Dashboard.hasResults.
    destruct (Z.ltb_spec 0 (len rs)); [reflexivity|lia]. }
  unfold featuresEq, DashboardRisk.features, ResultPage.features.
  cbn [accuracy_percent avg_response_time max_delay error_rate
       skipped_questions answer_changes].
  rewrite Hres.
  assert (Hacc : ResultPage.overallAccuracy rs = Dashboard.overallAccuracy rs)
    by reflexivity.
  rewrite Hacc.
  split; [reflexivity|]. split; [|split; [|split; [reflexivity|split]]].
  - unfold ResultPage.avgResponseTime, Dashboard.avgResponseTime.
    destruct (Z.ltb_spec 0 (len rs)); [reflexivity|lia].
  - unfold DashboardRisk.maxDelay, ResultPage.maxDelay,
      DashboardRisk.allAnswers, ResultPage.allAnswers.
    rewrite Hres, map_orZero.
    destruct (flat_map resAnswers rs) as [|a rest] eqn:E; [|reflexivity].
    cbn [map maxOr].
    apply flat_map_nil in E.
    assert (Hzero : Forall (fun r => avgResponseTime r = 0%Q) rs).
    { rewrite Forall_forall in *. intros r Hr.
      destruct (Hcons r Hr) as (_ & _ & _ & Havg).
      rewrite Havg, (E r Hr). reflexivity. }
    unfold Dashboard.avgTime.
    destruct (Z.ltb_spec 0 (len rs)); [|lia].
    rewrite sumQ_totalSpecQ, (totalSpecQ_zero avgResponseTime rs Hzero).
    unfold Qdiv. ring.
  - reflexivity.
  - unfold DashboardRisk.answerChanges, ResultPage.answerChanges,
      DashboardRisk.allAnswers, ResultPage.allAnswers.
    rewrite !sumZ_totalSpec, map_orZero. reflexivity.
Qed.

(** X11. Whenever the parent dashboard and the result page both call the
    risk service for the store's results, they send the same session id and
    the same feature vector: accuracy, average response time, longest
    delay, error rate, skipped questions and answer changes agree.  The
    result page calls only with a non-empty session id and at least one
    result; without a session id it sends nothing, whereas the dashboard,
    with results and no assessment stored yet, sends under the id
    ['local']. *)
Theorem pages_send_same_features (s : TestStore)
    (showDemo isCalculating : bool) :
  reachable s ->
  (forall (idD idR : string) (fd fr : Features),
     DashboardRisk.analyzeRequest s showDemo isCalculating = Some (idD, fd) ->
     ResultPage.analyzeRequest s = Some (idR, fr) ->
     idD = idR /\ featuresEq fd fr) /\
  ((exists req, ResultPage.analyzeRequest s = Some req) <->
   (exists id, sessionId s = Some id /\ id <> "") /\ testResults s <> []) /\
  (sessionId s = None -> testResults s <> [] -> riskAssessment s = None ->
   ResultPage.analyzeRequest s = None /\
   DashboardRisk.analyzeRequest s showDemo false =
     Some ("local", DashboardRisk.features (testResults s) showDemo)).
Proof.
  intros Hreach.
  assert (Htruthy : forall id, truthyString id = true <-> id <> "").
  { intros id. unfold truthyString.
    destruct (String.eqb_spec id ""); split; intros H;
      try discriminate; try reflexivity; try assumption; contradiction. }
  assert (Hlen : forall rs : list TestResult,
            (len rs =? 0) = false <-> rs <> []).
  { intros rs. rewrite <- len_nil_iff.
    destruct (Z.eqb_spec (len rs) 0); split; intros H;
      try discriminate; try reflexivity; try assumption; contradiction. }
  split; [|split].
  - intros idD idR fd fr Hd Hr.
    unfold ResultPage.analyzeRequest in Hr.
    destruct (sessionId s) as [id|] eqn:Hid; [|discriminate].
    destruct (truthyString id) eqn:Hnonempty; simpl in Hr; [|discriminate].
    destruct (len (testResults s) =? 0) eqn:Hres; [discriminate|].
    injection Hr as <- <-.
    unfold DashboardRisk.analyzeRequest in Hd. rewrite Hid, Hnonempty in Hd.
    destruct (DashboardRisk.calculates s isCalculating); [|discriminate].
    injection Hd as <- <-.
    split; [reflexivity|].
    apply features_agree_on_store; [exact Hreach|apply Hlen; exact Hres].
  - unfold ResultPage.analyzeRequest. split.
    + intros [req Hreq].
      destruct (sessionId s) as [id|]; [|discriminate].
      destruct (truthyString id) eqn:Hnonempty; simpl in Hreq; [|discriminate].
      destruct (len (testResults s) =? 0) eqn:Hres; [discriminate|].
      split; [|apply Hlen; exact Hres].
      exists id. split; [reflexivity|apply Htruthy; exact Hnonempty].
    + intros [[id [Hid Hne]] Hres]. rewrite Hid.
      apply Htruthy in Hne. apply Hlen in Hres. rewrite Hne, Hres. simpl.
      eexists. reflexivity.
  - intros Hid Hres Hrisk. unfold ResultPage.analyzeRequest. rewrite Hid.
    split; [reflexivity|].
    unfold DashboardRisk.analyzeRequest, DashboardRisk.calculates,
      Dashboard.hasResults.
    rewrite Hid, Hrisk.
    destruct (Z.ltb_spec 0 (len (testResults s))) as [_|Hle]; [reflexivity|].
    exfalso. apply Hres. apply len_nil_iff.
    pose proof (len_nonneg (testResults s)). lia.
Qed.

Lemma pages_send_same_features_witness :
  let s := perform CompleteTest
             (perform (SubmitAnswer "Bear" 2 1500)
                (perform (StartTest NumberComparison [q1] 1000)
                   (perform (SetSessionId "session-1") initialState))) in
  "session-1" = "session-1" /\
  featuresEq (DashboardRisk.features (testResults s) false)
             (ResultPage.features (testResults s)).
Proof.
  destruct (pages_send_same_features
              (perform CompleteTest
                 (perform (SubmitAnswer "Bear" 2 1500)
                    (perform (StartTest NumberComparison [q1] 1000)
                       (perform (SetSessionId "session-1") initialState))))
              false false) as [Hsame _].
  - apply reachable_step. apply reachable_step. apply reachable_step.
    apply reachable_step. apply reachable_init.
  - apply (Hsame "session-1" "session-1"); reflexivity.
Defined.

(** Results that did not come out of the store can tell the pages apart:
    for the demo fixture, which has averages but no answers, the dashboard's
    [max_delay] is 1.5 times the average, the result page's is 0. *)
Example features_differ_outside_store :
  Qeq_bool (max_delay (DashboardRisk.features Dashboard.demoResults false))
           (7900#1) = true /\
  max_delay (ResultPage.features Dashboard.demoResults) = 0%Q.
Proof. split; [vm_compute|]; reflexivity. Qed.

Lemma Qle_bool_false_lt (x y : Q) : Qle_bool x y = false -> (y < x)%Q.
Proof.
  intros H. apply Qnot_le_lt. intros Hle.
  apply Qle_bool_iff in Hle. congruence.
Qed.

Lemma Qle_bool_mono_r (c x y : Q) :
  (x <= y)%Q -> Qle_bool c x = true -> Qle_bool c y = true.
Proof.
  intros Hxy H. apply Qle_bool_iff. apply Qle_bool_iff in H.
  apply (Qle_trans _ x); assumption.
Qed.

Lemma Qle_bool_mono_l (c x y : Q) :
  (x <= y)%Q -> Qle_bool y c = true -> Qle_bool x c = true.
Proof.
  intros Hxy H. apply Qle_bool_iff. apply Qle_bool_iff in H.
  apply (Qle_trans _ y); assumption.
Qed.

Ltac q_to_z :=
  repeat match goal with
         | H : Qle_bool _ _ = true |- _ => apply Qle_bool_iff in H
         | H : Qle_bool _ _ = false |- _ => apply Qle_bool_false_lt in H
         end;
  unfold Qle, Qlt in *; simpl in *.

(** X12. The stars of the result page and the risk level both pages fall
    back on when the risk service fails are step functions of the overall
    accuracy that agree with each other: the stars lie between 1 and 5 and
    never decrease as the accuracy rises, the level never gets worse as it
    rises, a low risk comes with at least 4 stars, a medium risk with 3 or 4
    and a high risk with at most 3; the dashboard's fallback level and the
    result page's default level are the same function. *)
Theorem stars_and_level_follow_accuracy (acc acc' : Q) :
  1 <= ResultPage.getStarsEarned acc <= 5 /\
  ((acc <= acc')%Q ->
   ResultPage.getStarsEarned acc <= ResultPage.getStarsEarned acc' /\
   riskRank (ResultPage.defaultLevel acc') <=
   riskRank (ResultPage.defaultLevel acc)) /\
  (ResultPage.defaultLevel acc = Low -> 4 <= ResultPage.getStarsEarned acc) /\
  (ResultPage.defaultLevel acc = Medium ->
   3 <= ResultPage.getStarsEarned acc <= 4) /\
  (ResultPage.defaultLevel acc = High -> ResultPage.getStarsEarned acc <= 3) /\
  DashboardRisk.fallbackLevel acc = ResultPage.defaultLevel acc.
Proof.
  split; [|split; [|split; [|split; [|split]]]].
  - unfold ResultPage.getStarsEarned.
    repeat match goal with
           | |- context [if ?b then _ else _] => destruct b
           end; lia.
  - intros Hle.
    pose proof (Qle_bool_mono_r (80#1) acc acc' Hle) as H80.
    pose proof (Qle_bool_mono_r (60#1) acc acc' Hle) as H60.
    pose proof (Qle_bool_mono_r (40#1) acc acc' Hle) as H40.
    pose proof (Qle_bool_mono_r (20#1) acc acc' Hle) as H20.
    pose proof (Qle_bool_mono_l (70#1) acc acc' Hle) as L70.
    pose proof (Qle_bool_mono_l (40#1) acc acc' Hle) as L40.
    unfold ResultPage.getStarsEarned, ResultPage.defaultLevel, Qgt_bool.
    split.
    + destruct (Qle_bool (80#1) acc); [rewrite (H80 eq_refl); lia|].
      destruct (Qle_bool (60#1) acc);
        [rewrite (H60 eq_refl); destruct (Qle_bool (80#1) acc'); lia|].
      destruct (Qle_bool (40#1) acc);
        [rewrite (H40 eq_refl);
         destruct (Qle_bool (80#1) acc'), (Qle_bool (60#1) acc'); lia|].
      destruct (Qle_bool (20#1) acc);
        [rewrite (H20 eq_refl)|];
        destruct (Qle_bool (80#1) acc'), (Qle_bool (60#1) acc'),
                 (Qle_bool (40#1) acc'); try lia;
        destruct (Qle_bool (20#1) acc'); lia.
    + destruct (Qle_bool acc' (70#1)); simpl.
      * rewrite (L70 eq_refl). simpl.
        destruct (Qle_bool acc' (40#1)); simpl.
        -- rewrite (L40 eq_refl). simpl. lia.
        -- destruct (Qle_bool acc (40#1)); simpl; lia.
      * destruct (Qle_bool acc (70#1)); simpl; [|lia].
        destruct (Qle_bool acc (40#1)); simpl; lia.
  - unfold ResultPage.defaultLevel, ResultPage.getStarsEarned, Qgt_bool.
    destruct acc as [n d].
    destruct (Qle_bool (n # d) (70#1)) eqn:E70; simpl;
      [destruct (Qle_bool (n # d) (40#1)); simpl; discriminate|].
    intros _.
    destruct (Qle_bool (80#1) (n # d)) eqn:E80; [lia|].
    destruct (Qle_bool (60#1) (n # d)) eqn:E60; [lia|].
    exfalso. q_to_z. lia.
  - unfold ResultPage.defaultLevel, ResultPage.getStarsEarned, Qgt_bool.
    destruct acc as [n d].
    destruct (Qle_bool (n # d) (70#1)) eqn:E70; simpl; [|discriminate].
    destruct (Qle_bool (n # d) (40#1)) eqn:E40; simpl; [discriminate|].
    intros _.
    destruct (Qle_bool (80#1) (n # d)) eqn:E80; [exfalso; q_to_z; lia|].
    destruct (Qle_bool (60#1) (n # d)) eqn:E60; [lia|].
    destruct (Qle_bool (40#1) (n # d)) eqn:E40'; [lia|].
    exfalso. q_to_z. lia.
  - unfold ResultPage.defaultLevel, ResultPage.getStarsEarned, Qgt_bool.
    destruct acc as [n d].
    destruct (Qle_bool (n # d) (70#1)) eqn:E70; simpl; [|discriminate].
    destruct (Qle_bool (n # d) (40#1)) eqn:E40; simpl; [|discriminate].
    intros _.
    destruct (Qle_bool (80#1) (n # d)) eqn:E80; [exfalso; q_to_z; lia|].
    destruct (Qle_bool (60#1) (n # d)) eqn:E60; [exfalso; q_to_z; lia|].
    destruct (Qle_bool (40#1) (n # d)); [lia|].
    destruct (Qle_bool (20#1) (n # d)); lia.
  - reflexivity.
Qed.

Lemma stars_and_level_follow_accuracy_witness :
  ResultPage.getStarsEarned (220#3) <= ResultPage.getStarsEarned (90#1) /\
  riskRank (ResultPage.defaultLevel (90#1)) <=
  riskRank (ResultPage.defaultLevel (220#3)) /\
  4 <= ResultPage.getStarsEarned (220#3).
Proof.
  destruct (stars_and_level_follow_accuracy (220#3) (90#1))
    as (_ & Hmono & Hlow & _).
  destruct Hmono as [Hs Hr]; [unfold Qle; simpl; lia|].
  split; [exact Hs|]. split; [exact Hr|].
  apply Hlow. reflexivity.
Defined.

(** ** Properties of the test pages *)

Lemma addLog_from (msgs acc : list string) :
  fold_left (fun log m => TestPage.addLog m log) msgs (firstn 10 acc) =
  firstn 10 (rev msgs ++ acc).
Proof.
  revert acc. induction msgs as [|m msgs IH]; intros acc.
  - reflexivity.
  - cbn [fold_left rev].
    assert (Hstep : TestPage.addLog m (firstn 10 acc) = firstn 10 (m :: acc)).
    { unfold TestPage.addLog.
      change (firstn 10 (m :: firstn 10 acc))
        with (m :: firstn 9 (firstn 10 acc)).
      rewrite firstn_firstn. reflexivity. }
    rewrite Hstep, IH, <- app_assoc. reflexivity.
Qed.

(** X14. The debug log of the arithmetic page is a bounded buffer: after
    any number of [addLog] calls it holds the last ten messages, newest
    first, and never more than ten. *)
Theorem addLog_keeps_last_ten (msgs : list string) :
  fold_left (fun log m => TestPage.addLog m log) msgs [] =
    firstn 10 (rev msgs) /\
  (List.length (fold_left (fun log m => TestPage.addLog m log) msgs []) <= 10)%nat.
Proof.
  pose proof (addLog_from msgs []) as H. simpl firstn in H at 1.
  rewrite app_nil_r in H. rewrite H. split; [reflexivity|].
  apply firstn_le_length.
Qed.

Lemma select_fold (selections : list string) :
  forall ui : TestPage.PageState,
    TestPage.showResult ui = false ->
    fold_left (fun st a => TestPage.handleSelectAnswer a st) selections ui =
    TestPage.mkPageState
      (match selections with
       | [] => TestPage.selectedAnswer ui
       | _ :: _ => Some (last selections "")
       end)
      false
      (TestPage.answerChanges ui
         + switches (TestPage.selectedAnswer ui) selections).
Proof.
  induction selections as [|a rest IH]; intros ui Hshow.
  - destruct ui as [sel show changes]. simpl in *. subst show.
    f_equal. lia.
  - cbn [fold_left]. rewrite IH.
    + unfold TestPage.handleSelectAnswer. rewrite Hshow.
      cbn [TestPage.selectedAnswer TestPage.answerChanges switches].
      f_equal.
      * destruct rest; reflexivity.
      * destruct (TestPage.selectedAnswer ui) as [p|];
          [destruct (TestPage.truthy p && negb (strictEq p a))|]; lia.
    + unfold TestPage.handleSelectAnswer. rewrite Hshow. reflexivity.
Qed.

Lemma switches_bounds (selections : list string) (prev : option string) :
  0 <= switches prev selections <= len selections.
Proof.
  revert prev. induction selections as [|a rest IH]; intros prev.
  - unfold len. simpl. lia.
  - rewrite len_cons. cbn [switches]. specialize (IH (Some a)).
    destruct prev as [p|];
      [destruct (TestPage.truthy p && negb (strictEq p a))|]; lia.
Qed.

Lemma answerQuestions_store (steps : list (list string * Z * Z)) :
  forall (qs pre : list Question) (s : TestStore),
    steps <> [] ->
    questions s = pre ++ qs -> currentQuestionIndex s = len pre ->
    len steps = len qs ->
    Forall selectsSomething steps ->
    snd (TestPage.answerQuestions steps (TestPage.freshPage, s)) =
    completeTest (run (inOrder (map pageStep steps)) s).
Proof.
  induction steps as [|[[sels ts] tn] rest IH];
    intros qs pre s Hne Hqs Hi Hlen Hall; [contradiction|].
  destruct qs as [|q qs];
    [rewrite len_cons in Hlen; pose proof (len_nonneg rest);
     unfold len in Hlen at 2; simpl in Hlen; lia|].
  rewrite !len_cons in Hlen.
  apply Forall_cons_iff in Hall. destruct Hall as [[Hsels Hlast] Hall].
  simpl in Hsels, Hlast.
  assert (Hq : getCurrentQuestion s = Some q).
  { unfold getCurrentQuestion. rewrite Hqs, Hi. apply index_app_middle. }
  assert (Htruthy : TestPage.truthy (last sels "") = true).
  { unfold TestPage.truthy. destruct (String.eqb_spec (last sels "") "");
      [contradiction|reflexivity]. }
  unfold TestPage.answerQuestions. cbn [fold_left].
  unfold TestPage.answerQuestion at 2. cbn [fst snd].
  rewrite (select_fold sels TestPage.freshPage eq_refl).
  destruct sels as [|a0 sels0]; [contradiction|].
  set (sel := last (a0 :: sels0) "") in *.
  unfold TestPage.handleSubmit.
  cbn [TestPage.selectedAnswer TestPage.answerChanges TestPage.freshPage].
  rewrite Hq, Htruthy. rewrite Z.add_0_l.
  set (s1 := submitAnswer sel (switches None (a0 :: sels0)) ts s).
  destruct (submitAnswer_frame sel (switches None (a0 :: sels0)) ts s)
    as (Hq1 & Hi1 & _).
  fold s1 in Hq1, Hi1.
  destruct rest as [|y rest].
  - destruct qs as [|q' qs];
      [|rewrite len_cons in Hlen; pose proof (len_nonneg qs);
        unfold len in Hlen at 1; simpl in Hlen; lia].
    destruct (Z.ltb_spec (currentQuestionIndex s) (len (questions s) - 1))
      as [Hlt|_].
    + rewrite Hqs, Hi, len_app in Hlt. unfold len in Hlt at 3.
      simpl in Hlt. lia.
    + reflexivity.
  - destruct (Z.ltb_spec (currentQuestionIndex s) (len (questions s) - 1))
      as [Hlt|Hge].
    + fold (TestPage.answerQuestions (y :: rest)
              (TestPage.mkPageState None false 0, nextQuestion tn s1)).
      change (TestPage.mkPageState None false 0) with TestPage.freshPage.
      destruct (nextQuestion_frame tn s1) as (Hq2 & _).
      destruct (nextQuestion_moves tn s1) as [Hi2 _];
        [rewrite Hq1, Hi1; exact Hlt|].
      rewrite (IH qs (pre ++ [q]) (nextQuestion tn s1));
        try assumption; try discriminate.
      * reflexivity.
      * rewrite Hq2, Hq1, Hqs, <- app_assoc. reflexivity.
      * rewrite Hi2, Hi1, Hi, len_app. unfold len at 3. simpl. lia.
      * lia.
    + exfalso. rewrite Hqs, Hi, len_app, len_cons in Hge.
      rewrite len_cons in Hlen. pose proof (len_nonneg rest). lia.
Qed.

Lemma answersInOrder_changes (steps : list (string * Z * Z * Z)) :
  forall (started : Z) (qs : list Question),
    len steps = len qs ->
    map answerChanges (answersInOrder started qs steps) =
      map (fun st => snd (fst (fst st))) steps.
Proof.
  induction steps as [|[[[a c] ts] tn] rest IH]; intros started qs Hlen.
  - destruct qs; reflexivity.
  - destruct qs as [|q qs].
    + rewrite len_cons in Hlen. pose proof (len_nonneg rest).
      unfold len in Hlen at 2. simpl in Hlen. lia.
    + rewrite !len_cons in Hlen. simpl.
      rewrite (IH tn qs) by lia. reflexivity.
Qed.

(** X15. A test taken on the page.  When the child, for each of the K >= 1
    questions in turn, selects options (ending on a non-empty one) and
    submits, the store ends up as after the same answers given in order and
    [completeTest]; with non-zero clock readings the one [TestResult] added
    holds K answers, the i-th with the option selected last on question i
    and with [answerChanges] equal to the number of times the selection on
    that question moved to a different option - the counter starts at 0 on
    every question and never reaches the number of selections. *)
Theorem page_run_records_test (s : TestStore) (ty : TestType)
    (qs : list Question) (t0 : Z) (steps : list (list string * Z * Z)) :
  steps <> [] -> len steps = len qs -> Forall selectsSomething steps ->
  let final := snd (TestPage.answerQuestions steps
                      (TestPage.freshPage, startTest ty qs t0 s)) in
  let recorded := answersInOrder t0 qs (map pageStep steps) in
  final = completeTest (run (inOrder (map pageStep steps))
                          (startTest ty qs t0 s)) /\
  (t0 <> 0 -> Forall (fun t => t <> 0) (advanceStamps (map pageStep steps)) ->
   testResults final =
     testResults s ++
       [mkTestResult ty (len qs) (countCorrectSpec recorded)
          (avgTime recorded) recorded] /\
   map selectedAnswer recorded = map (fun q => last (fst (fst q)) "") steps /\
   map answerChanges recorded =
     map (fun q => switches None (fst (fst q))) steps /\
   Forall (fun q => 0 <= switches None (fst (fst q))
                    <= len (fst (fst q)) - 1) steps).
Proof.
  intros Hne Hlen Hall. cbv zeta.
  assert (Hrun : snd (TestPage.answerQuestions steps
                        (TestPage.freshPage, startTest ty qs t0 s)) =
                 completeTest (run (inOrder (map pageStep steps))
                                 (startTest ty qs t0 s))).
  { apply (answerQuestions_store steps qs []); try assumption; reflexivity. }
  split; [exact Hrun|]. intros Ht0 Hstamps. rewrite Hrun.
  assert (Hlen' : len (map pageStep steps) = len qs).
  { unfold len in *. rewrite length_map. exact Hlen. }
  destruct (inOrder_records (map pageStep steps) qs []
              (startTest ty qs t0 s) t0)
    as (Hans & Hquest & Hty & Hres); try assumption; try reflexivity.
  simpl in Hans, Hquest, Hty, Hres.
  split; [|split; [|split]].
  - unfold completeTest. rewrite Hty. simpl.
    rewrite Hres, Hans, Hquest, correctCount_countCorrectSpec. reflexivity.
  - destruct (answersInOrder_ids (map pageStep steps) t0 qs Hlen') as [_ H].
    rewrite H, map_map. apply map_ext. intros [[sels ts] tn]. reflexivity.
  - rewrite (answersInOrder_changes (map pageStep steps) t0 qs Hlen'), map_map.
    apply map_ext. intros [[sels ts] tn]. reflexivity.
  - eapply Forall_impl; [|exact Hall].
    intros [[sels ts] tn] [Hsels _]. simpl in *.
    destruct sels as [|a rest]; [contradiction|].
    cbn [switches]. rewrite len_cons.
    pose proof (switches_bounds rest (Some a)). lia.
Qed.

Lemma page_run_records_test_witness :
  let steps := [(["Rabbit"; "Bear"], 2000, 2100); (["Rabbit"], 5000, 0)] in
  snd (TestPage.answerQuestions steps
         (TestPage.freshPage,
          startTest NumberComparison [q1; q2] 1000 initialState)) =
  completeTest (run (inOrder (map pageStep steps))
                  (startTest NumberComparison [q1; q2] 1000 initialState)).
Proof.
  destruct (page_run_records_test initialState NumberComparison [q1; q2] 1000
              [(["Rabbit"; "Bear"], 2000, 2100); (["Rabbit"], 5000, 0)])
    as [H _].
  - discriminate.
  - reflexivity.
  - repeat constructor; simpl; discriminate.
  - exact H.
Defined.

(** The same run, evaluated: one switch on the first question, none on the
    second. *)
Example page_run_counts_switches :
  map (fun r => map answerChanges (resAnswers r))
    (testResults
       (snd (TestPage.answerQuestions
               [(["Rabbit"; "Bear"], 2000, 2100); (["Rabbit"; "Rabbit"], 5000, 0)]
               (TestPage.freshPage,
                startTest NumberComparison [q1; q2] 1000 initialState))))
  = [[1; 0]].
Proof. reflexivity. Qed.

Lemma run_keeps_session (acts : list Action) (s : TestStore) :
  forallb keepsSession acts = true ->
  sessionId (run acts s) = sessionId s /\
  exists rs, testResults (run acts s) = testResults s ++ rs.
Proof.
  unfold run. revert s. induction acts as [|a acts IH]; intros s Hkeep.
  - simpl. split; [reflexivity|]. exists []. rewrite app_nil_r. reflexivity.
  - simpl in Hkeep. apply andb_true_iff in Hkeep. destruct Hkeep as [Ha Hacts].
    destruct (perform_keeps_results a s Ha) as (Hid & r1 & Hr1 & _).
    destruct (IH (perform a s) Hacts) as (Hid' & r2 & Hr2).
    cbn [fold_left]. split; [rewrite Hid', Hid; reflexivity|].
    exists (r1 ++ r2). rewrite Hr2, Hr1, app_assoc. reflexivity.
Qed.

(** X16. Starting a session on the age page wipes the store only when the
    session service answers.  With a session id, whatever the pages do next
    runs as on a fresh store with that id and age.  When the service fails,
    the age is set and nothing else: the earlier session's id stays and its
    results stay in front of every result completed afterwards - unless the
    store was reset by the result page's restart, after which the run is
    that of a fresh store without a session id. *)
Theorem handleContinue_wipes_only_with_session (s : TestStore)
    (age : AgeGroup) (acts : list Action) :
  (forall id,
     run acts (AgeSelectPage.handleContinue (Some age) (Some id) s) =
     run acts (AgeSelectPage.handleContinue (Some age) (Some id) initialState)) /\
  (forallb keepsSession acts = true ->
   sessionId (run acts (AgeSelectPage.handleContinue (Some age) None s)) =
     sessionId s /\
   exists rs,
     testResults (run acts (AgeSelectPage.handleContinue (Some age) None s)) =
     testResults s ++ rs) /\
  run acts (AgeSelectPage.handleContinue (Some age) None
              (ResultPage.handleRestart s)) =
  run acts (AgeSelectPage.handleContinue (Some age) None initialState) /\
  (forall response, AgeSelectPage.handleContinue None response s = s).
Proof.
  split; [|split; [|split]].
  - intros id. reflexivity.
  - intros Hkeep.
    destruct (run_keeps_session acts
                (AgeSelectPage.handleContinue (Some age) None s) Hkeep)
      as [Hid [rs Hrs]].
    split; [exact Hid|]. exists rs. exact Hrs.
  - reflexivity.
  - intros response. reflexivity.
Qed.

Lemma handleContinue_wipes_only_with_session_witness :
  let old := run [StartTest NumberComparison [q1] 1000;
                  SubmitAnswer "Bear" 0 2000; CompleteTest]
               (setSessionId "session-1" initialState) in
  let acts := [StartTest MemoryRecall [q2] 5000;
               SubmitAnswer "Bear" 0 8000; CompleteTest] in
  sessionId (run acts (AgeSelectPage.handleContinue (Some Age7_8) None old)) =
    sessionId old /\
  exists rs,
    testResults (run acts (AgeSelectPage.handleContinue (Some Age7_8) None old))
    = testResults old ++ rs.
Proof.
  destruct (handleContinue_wipes_only_with_session
              (run [StartTest NumberComparison [q1] 1000;
                    SubmitAnswer "Bear" 0 2000; CompleteTest]
                 (setSessionId "session-1" initialState))
              Age7_8
              [StartTest MemoryRecall [q2] 5000;
               SubmitAnswer "Bear" 0 8000; CompleteTest])
    as (_ & Hfail & _).
  apply Hfail. reflexivity.
Defined.

(** X17. The class of an option button gives the correct answer away only
    once the result is shown.  Before that it does not depend on the
    question at all and marks just the selected option; with the result
    shown, an option is marked correct exactly when it is the question's
    correct answer and incorrect exactly when it is the selected option and
    not the correct answer. *)
Theorem getOptionClass_reveals_after_result (question : Question)
    (selectedAnswer : option string) (option : string) :
  (forall other : Question,
     PuzzleCard.getOptionClass question selectedAnswer false option =
     PuzzleCard.getOptionClass other selectedAnswer false option) /\
  (PuzzleCard.getOptionClass question selectedAnswer false option =
     "option-btn selected" <-> selectedAnswer = Some option) /\
  (PuzzleCard.getOptionClass question selectedAnswer true option =
     "option-btn correct" <-> option = correctAnswer question) /\
  (PuzzleCard.getOptionClass question selectedAnswer true option =
     "option-btn incorrect" <->
   selectedAnswer = Some option /\ option <> correctAnswer question).
Proof.
  assert (Hsel : PuzzleCard.optionEq selectedAnswer option = true <->
                 selectedAnswer = Some option).
  { unfold PuzzleCard.optionEq. destruct selectedAnswer as [sel|].
    - rewrite strictEq_spec. split; [intros ->; reflexivity|congruence].
    - split; discriminate. }
  assert (Hcorrect : strictEq option (correctAnswer question) = false ->
                     option <> correctAnswer question).
  { intros E H. apply strictEq_spec in H. congruence. }
  unfold PuzzleCard.getOptionClass.
  destruct (PuzzleCard.optionEq selectedAnswer option) eqn:Esel;
    destruct (strictEq option (correctAnswer question)) eqn:Ecorrect; simpl.
  - apply strictEq_spec in Ecorrect. pose proof (proj1 Hsel eq_refl) as Hs.
    split; [reflexivity|]. split; [tauto|]. split; [tauto|].
    split; [discriminate|intros [_ H]; contradiction].
  - pose proof (Hcorrect eq_refl) as Hne. pose proof (proj1 Hsel eq_refl) as Hs.
    split; [reflexivity|]. split; [tauto|].
    split; [split; [discriminate|contradiction]|tauto].
  - apply strictEq_spec in Ecorrect.
    assert (Hs : selectedAnswer <> Some option)
      by (intros H; apply Hsel in H; discriminate).
    split; [reflexivity|].
    split; [split; [discriminate|contradiction]|].
    split; [tauto|]. split; [discriminate|intros [H _]; contradiction].
  - pose proof (Hcorrect eq_refl) as Hne.
    assert (Hs : selectedAnswer <> Some option)
      by (intros H; apply Hsel in H; discriminate).
    split; [reflexivity|].
    split; [split; [discriminate|contradiction]|].
    split; [split; [discriminate|contradiction]|].
    split; [discriminate|intros [H _]; contradiction].
Qed.

Lemma filledStars_count (n : nat) (earned : Z) :
  len (filter (fun b : bool => b)
         (map (fun index => Z.of_nat index <? earned) (seq 0 n))) =
  Z.max 0 (Z.min earned (Z.of_nat n)).
Proof.
  induction n as [|n IH].
  - unfold len. simpl. lia.
  - rewrite seq_S, map_app, filter_app, len_app, IH. simpl.
    destruct (Z.ltb_spec (Z.of_nat n) earned); unfold len; simpl; lia.
Qed.

(** X18. The progress bar under the store's figures.  Of the [totalStars]
    stars the first min(earnedStars, totalStars) are drawn filled (none
    when that is negative), so correct answers beyond the number of
    questions add no star; and for every state the store can reach the
    clamp of the bar's width to 100 leaves [getProgress] as it is. *)
Theorem progress_bar_shows_store_figures :
  (forall totalStars earnedStars : Z,
     len (ProgressBar.filledStars totalStars earnedStars) =
       Z.max 0 totalStars /\
     len (filter (fun b : bool => b)
            (ProgressBar.filledStars totalStars earnedStars)) =
       Z.max 0 (Z.min earnedStars totalStars) /\
     forall i : nat,
       nth_error (ProgressBar.filledStars totalStars earnedStars) i = Some true
       <-> Z.of_nat i < Z.min earnedStars totalStars) /\
  (forall s : TestStore,
     reachable s -> ProgressBar.barWidth (getProgress s) = getProgress s).
Proof.
  split.
  - intros total earned. unfold ProgressBar.filledStars. split; [|split].
    + unfold len. rewrite length_map, length_seq. lia.
    + rewrite filledStars_count. lia.
    + intros i. rewrite nth_error_map.
      destruct (Nat.lt_ge_cases i (Z.to_nat total)) as [Hlt|Hge].
      * rewrite nth_error_seq.
        destruct (Nat.ltb_spec i (Z.to_nat total)) as [_|Hge]; [|lia].
        simpl. split.
        -- intros E. injection E as E. apply Z.ltb_lt in E. lia.
        -- intros H. f_equal. apply Z.ltb_lt. lia.
      * assert (E : nth_error (seq 0 (Z.to_nat total)) i = None)
          by (apply nth_error_None; rewrite length_seq; exact Hge).
        rewrite E. simpl. split; [discriminate|lia].
  - intros s Hreach. unfold ProgressBar.barWidth.
    destruct (questions s) as [|q qs] eqn:E.
    + rewrite getProgress_empty by exact E. reflexivity.
    + assert (Hne : questions s <> []) by (rewrite E; discriminate).
      destruct (reachable_cursorInRange s Hreach) as [_ Hcons].
      specialize (Hcons Hne).
      assert (Hle : (getProgress s <= 100#1)%Q).
      { rewrite getProgress_percent by exact Hne.
        apply percent_bounds. lia. }
      apply Qle_bool_iff in Hle. rewrite Hle. reflexivity.
Qed.

Lemma progress_bar_shows_store_figures_witness :
  ProgressBar.barWidth
    (getProgress (perform (StartTest NumberComparison [q1; q2] 1000)
                    initialState)) =
  getProgress (perform (StartTest NumberComparison [q1; q2] 1000) initialState).
Proof.
  destruct progress_bar_shows_store_figures as [_ H].
  apply H. apply reachable_step. apply reachable_init.
Defined.

Lemma perform_keeps_assessment (a : Action) (s : TestStore) :
  keepsSession a = true -> riskAssessment s <> None ->
  riskAssessment (perform a s) <> None.
Proof.
  intros Hkeep Hs.
  destruct a as [id|age|ty qs now|ans c now|now| |r| ]; simpl in *;
    try discriminate; try exact Hs.
  - destruct (submitAnswer_cases ans c now s) as [E|(q & st & _ & _ & _ & E)];
      rewrite E; exact Hs.
  - destruct (nextQuestion_cases now s) as [E|[_ E]]; rewrite E; exact Hs.
  - unfold completeTest. destruct (currentTestType s); exact Hs.
Qed.

(** X19. A stored risk assessment is never recalculated by the dashboard
    within a session: once [setRiskAssessment] has run, whatever tests are
    started, answered and completed afterwards, an assessment stays in the
    store (only [setSessionId] and [resetSession] remove it) and the
    dashboard's effect returns without computing a new one, although
    [testResults] may have grown. *)
Theorem assessment_is_not_recalculated (a : RiskAssessment)
    (acts : list Action) (s : TestStore) (isCalculating : bool) :
  forallb keepsSession acts = true ->
  riskAssessment (run acts (setRiskAssessment a s)) <> None /\
  DashboardRisk.calculates (run acts (setRiskAssessment a s)) isCalculating
  = false.
Proof.
  intros Hkeep.
  assert (Hsome : forall s0, riskAssessment s0 <> None ->
                             riskAssessment (run acts s0) <> None).
  { unfold run. induction acts as [|act acts IH]; intros s0 Hs0; simpl.
    - exact Hs0.
    - simpl in Hkeep. apply andb_true_iff in Hkeep.
      destruct Hkeep as [Hact Hacts].
      apply IH; [exact Hacts|]. apply perform_keeps_assessment; assumption. }
  assert (H : riskAssessment (run acts (setRiskAssessment a s)) <> None)
    by (apply Hsome; simpl; discriminate).
  split; [exact H|]. unfold DashboardRisk.calculates.
  destruct (riskAssessment (run acts (setRiskAssessment a s)));
    [|contradiction].
  destruct (negb (Dashboard.hasResults
                    (testResults (run acts (setRiskAssessment a s)))));
    reflexivity.
Qed.

Lemma assessment_is_not_recalculated_witness :
  DashboardRisk.calculates
    (run [StartTest MemoryRecall [q2] 5000; SubmitAnswer "Bear" 0 8000;
          CompleteTest]
       (setRiskAssessment (mkRiskAssessment Low (3#4) "ok" [])
          (run [StartTest NumberComparison [q1] 1000;
                SubmitAnswer "Bear" 0 2000; CompleteTest] initialState)))
    false
  = false.
Proof.
  apply (assessment_is_not_recalculated (mkRiskAssessment Low (3#4) "ok" [])
           [StartTest MemoryRecall [q2] 5000; SubmitAnswer "Bear" 0 8000;
            CompleteTest]).
  reflexivity.
Defined.
